(** * chad-core: policy guard, approval workflow and webhook notifier

    A shallow embedding of
      - chad_agents/policies/autonomy.py
      - chad_agents/policies/policy_guard.py
      - apps/core_api/routers/approvals.py
      - chad_notifications/webhooks.py
    together with the properties their specification states.

    Modelling conventions.
      - Python [str] is a [string] of 8-bit characters; [str.lower] acts on
        the ASCII letters.
      - Python [float] risk values are exact rationals ([Q]); a decimal
        literal denotes its decimal value, and numeric results are compared
        with [==] ([Qeq]).  Rounding of binary floating point is outside the
        model.
      - Python [int] is [Z].
      - A [dict] is a [gmap]; the Redis keyspace is a [gmap] from key to
        stored value and expiry.
      - Exceptions are explicit: a function that can raise returns a sum or
        an option. *)

From Stdlib Require Import ZArith QArith Qminmax Lqa Lia List String Ascii Bool.
From stdpp Require Import base gmap strings.
Import ListNotations.

Local Open Scope string_scope.

(** ** Python built-ins used by the sources *)

Module Py.

(** [c.lower()] on one ASCII character. *)
Definition lower_ascii (c : ascii) : ascii :=
  let n := nat_of_ascii c in
  if (65 <=? n)%nat && (n <=? 90)%nat then ascii_of_nat (n + 32) else c.

(** [s.lower()] *)
Fixpoint lower (s : string) : string :=
  match s with
  | EmptyString => EmptyString
  | String c s' => String (lower_ascii c) (lower s')
  end.

(** [s.startswith(p)] *)
Fixpoint startswith (s p : string) : bool :=
  match p, s with
  | EmptyString, _ => true
  | String _ _, EmptyString => false
  | String a p', String b s' => Ascii.eqb a b && startswith s' p'
  end.

(** [sub in s] on strings: [sub] occurs as a contiguous substring. *)
Fixpoint contains (sub s : string) : bool :=
  startswith s sub ||
  match s with
  | EmptyString => false
  | String _ s' => contains sub s'
  end.

(** [s.endswith(p)] *)
Fixpoint endswith (s p : string) : bool :=
  String.eqb s p ||
  match s with
  | EmptyString => false
  | String _ s' => endswith s' p
  end.

(** [x in l] on a list of strings. *)
Definition mem (x : string) (l : list string) : bool :=
  existsb (String.eqb x) l.

(** [any(kw in s for kw in kws)] *)
Definition any_in (kws : list string) (s : string) : bool :=
  existsb (fun kw => contains kw s) kws.

(** [sep.join(l)] *)
Fixpoint join (sep : string) (l : list string) : string :=
  match l with
  | [] => ""
  | [x] => x
  | x :: l' => x ++ sep ++ join sep l'
  end.

(** [a < b] on numbers. *)
Definition ltb (a b : Q) : bool := negb (Qle_bool b a).

(** [min(a, b)]: the first argument unless the second is strictly smaller. *)
Definition min (a b : Q) : Q := if ltb b a then b else a.

(** [max(a, b)]: the first argument unless the second is strictly larger. *)
Definition max (a b : Q) : Q := if ltb a b then b else a.

End Py.

(** ** chad_agents/policies/policy_guard.py: the pydantic models that
       autonomy.py shares with the guard *)

Module Models.

Record User : Type := mkUser {
  user_id : string;
  scopes : list string
}.

Record ActRequest : Type := mkActRequest {
  actor : string;
  goal : string;
  context : gmap string string;
  dry_run : bool
}.

(** One entry of [ExecutionPlan.steps]: the dict with the keys
    ["tool"] and ["input"]. *)
Record Step : Type := mkStep {
  tool : string;
  input : gmap string string
}.

Record ExecutionPlan : Type := mkExecutionPlan {
  steps : list Step;
  tools_used : list string;
  required_scopes : list string
}.

End Models.

(** ** chad_agents/policies/autonomy.py *)

Module Autonomy.
Import Models.

Inductive AutonomyLevel : Type :=
| L0_Ask
| L1_Draft
| L2_ExecuteNotify
| L3_ExecuteSilent.

Definition AutonomyLevel_eqb (a b : AutonomyLevel) : bool :=
  match a, b with
  | L0_Ask, L0_Ask
  | L1_Draft, L1_Draft
  | L2_ExecuteNotify, L2_ExecuteNotify
  | L3_ExecuteSilent, L3_ExecuteSilent => true
  | _, _ => false
  end.

Definition calculate_tool_risk (tool_name : string) (capabilities : list string) : Q :=
  (* Default risk for unknown tools *)
  let risk := 0.2%Q in
  let tool_lower := Py.lower tool_name in
  let risk :=
    if Py.any_in ["delete"; "remove"; "drop"; "destroy"; "reset"] tool_lower then 0.7%Q
    else if Py.any_in ["admin"; "configure"; "setup"; "migrate"] tool_lower then 0.9%Q
    else if Py.any_in ["create"; "update"; "write"; "send"; "post"; "put"] tool_lower then 0.3%Q
    else if Py.any_in ["read"; "get"; "fetch"; "search"; "list"; "query"] tool_lower then 0.1%Q
    else if Py.startswith tool_lower "local." then 0.05%Q
    else risk in
  (* Check capabilities for additional risk *)
  let risk :=
    if Py.mem "admin" capabilities then Py.max risk 0.9%Q
    else if Py.mem "delete" capabilities then Py.max risk 0.7%Q
    else if Py.mem "write" capabilities then Py.max risk 0.3%Q
    else if Py.mem "read" capabilities then Py.max risk 0.1%Q
    else risk in
  Py.min risk 1.0%Q.

(** The amount one scope adds to [risk] in the loop of
    [calculate_scope_risk]. *)
Definition scope_increment (scope : string) : Q :=
  if String.eqb scope "*" || Py.startswith scope "admin." then 0.8%Q
  else if Py.contains ".write" scope || Py.contains ":write" scope then 0.4%Q
  else if Py.startswith scope "local." then 0.05%Q
  else if Py.startswith scope "github." then 0.3%Q
  else if Py.startswith scope "notion." || Py.startswith scope "google." then 0.2%Q
  else if Py.contains ".read" scope || Py.contains ":read" scope then 0.1%Q
  else 0.15%Q.

Definition calculate_scope_risk (scopes : list string) : Q :=
  let risk := fold_left (fun risk scope => (risk + scope_increment scope)%Q) scopes 0.0%Q in
  Py.min risk 1.0%Q.

Definition get_user_trust_level (user : User) : Q :=
  let scopes := scopes user in
  (* Admin users have full trust *)
  if Py.mem "*" scopes then 1.0%Q
  else
    let wildcard_scopes :=
      List.filter (fun s => Py.endswith s ".*" || Py.endswith s ":*") scopes in
    if (3 <=? length wildcard_scopes)%nat then 0.8%Q
    else if (5 <=? length scopes)%nat then 0.7%Q
    else if (3 <=? length scopes)%nat then 0.5%Q
    else if (1 <=? length scopes)%nat then 0.3%Q
    else 0.0%Q.

Definition requires_step_approval (autonomy_level : AutonomyLevel) : bool :=
  AutonomyLevel_eqb autonomy_level L0_Ask.

Definition requires_plan_approval (autonomy_level : AutonomyLevel) : bool :=
  AutonomyLevel_eqb autonomy_level L0_Ask || AutonomyLevel_eqb autonomy_level L1_Draft.

(** Dry-run is safe at all autonomy levels. *)
Definition is_dry_run_allowed (autonomy_level : AutonomyLevel) : bool := true.

Definition should_notify_user (autonomy_level : AutonomyLevel) : bool :=
  AutonomyLevel_eqb autonomy_level L0_Ask
  || AutonomyLevel_eqb autonomy_level L1_Draft
  || AutonomyLevel_eqb autonomy_level L2_ExecuteNotify.

Definition is_autonomous (autonomy_level : AutonomyLevel) : bool :=
  AutonomyLevel_eqb autonomy_level L3_ExecuteSilent.

End Autonomy.

(** ** chad_agents/policies/scopes.py *)

Module Scopes.

(** [s[:-1]] *)
Fixpoint but_last (s : string) : string :=
  match s with
  | EmptyString => EmptyString
  | String _ EmptyString => EmptyString
  | String c s' => String c (but_last s')
  end.

(** Modelled from the spec: [scope_matches] of chad_agents/policies/scopes.py,
    which is not among the sources.  A required scope is satisfied by a
    granted scope that is the global wildcard, that is the same string, or
    that is a wildcard ancestor ([svc.*] satisfies [svc.write]). *)
Definition scope_matches (required granted : string) : bool :=
  String.eqb granted "*"
  || String.eqb granted required
  || (Py.endswith granted ".*" && Py.startswith required (but_last granted)).

(** Modelled from the spec: [check_scopes] of chad_agents/policies/scopes.py,
    which is not among the sources.  It holds when every required scope is
    satisfied by some granted scope. *)
Definition check_scopes (required_scopes user_scopes : list string) : bool :=
  forallb (fun required => existsb (scope_matches required) user_scopes) required_scopes.

End Scopes.

(** ** chad_agents/policies/policy_guard.py: the result model *)

Module Result.
Import Autonomy.

Record PolicyValidationResult : Type := mkPolicyValidationResult {
  allowed : bool;
  autonomy_level : AutonomyLevel;
  risk_score : Q;
  requires_approval : bool;
  required_scopes : list string;
  missing_scopes : list string;
  reason : option string
}.

(** Constructing the pydantic model validates
    [risk_score: float = Field(..., ge=0.0, le=1.0)]; a value outside the
    range raises [ValidationError], here [None]. *)
Definition PolicyValidationResult_new
    (allowed : bool) (autonomy_level : AutonomyLevel) (risk_score : Q)
    (requires_approval : bool) (required_scopes missing_scopes : list string)
    (reason : option string) : option PolicyValidationResult :=
  if Qle_bool 0.0 risk_score && Qle_bool risk_score 1.0 then
    Some (mkPolicyValidationResult allowed autonomy_level risk_score
            requires_approval required_scopes missing_scopes reason)
  else None.

End Result.

(** ** chad_agents/policies/policy_guard.py *)

Module PolicyGuard.
Import Models Autonomy.

(** [chad_config.settings.Settings], as far as the guard reads it: each
    threshold attribute may be absent. *)
Record Settings : Type := mkSettings {
  RISK_THRESHOLD_L3 : option Q;
  RISK_THRESHOLD_L2 : option Q;
  RISK_THRESHOLD_L1 : option Q
}.

(** [getattr(settings, name, default)] *)
Definition getattr (attr : option Q) (default : Q) : Q :=
  match attr with
  | Some v => v
  | None => default
  end.

(** The instance attributes set by [PolicyGuard.__init__]. *)
Record PolicyGuard : Type := mkPolicyGuard {
  risk_threshold_l3 : Q;
  risk_threshold_l2 : Q;
  risk_threshold_l1 : Q
}.

Definition __init__ (settings : Settings) : PolicyGuard :=
  {| risk_threshold_l3 := getattr (RISK_THRESHOLD_L3 settings) 0.3%Q;
     risk_threshold_l2 := getattr (RISK_THRESHOLD_L2 settings) 0.6%Q;
     risk_threshold_l1 := getattr (RISK_THRESHOLD_L1 settings) 0.8%Q |}.

(** The guard built from settings that define no threshold. *)
Definition default_guard : PolicyGuard :=
  __init__ {| RISK_THRESHOLD_L3 := None; RISK_THRESHOLD_L2 := None; RISK_THRESHOLD_L1 := None |}.

Definition determine_autonomy_level
    (self : PolicyGuard) (request : ActRequest) (user : User) (risk_score : Q)
    : AutonomyLevel :=
  (* Admin scope always gets L3 (unless risk is critical) *)
  if Py.mem "*" (scopes user) && Py.ltb risk_score (risk_threshold_l1 self) then
    L3_ExecuteSilent
  (* Dry run requests default to L2 (safe to execute) *)
  else if dry_run request then
    L2_ExecuteNotify
  (* Risk-based determination *)
  else if Py.ltb risk_score (risk_threshold_l3 self) then
    L3_ExecuteSilent
  else if Py.ltb risk_score (risk_threshold_l2 self) then
    L2_ExecuteNotify
  else if Py.ltb risk_score (risk_threshold_l1 self) then
    L1_Draft
  else
    L0_Ask.

Definition check_scope_permissions (required_scopes user_scopes : list string) : bool :=
  Scopes.check_scopes required_scopes user_scopes.

Definition requires_approval (autonomy_level : AutonomyLevel) (risk_score : Q) : bool :=
  (* L0 and L1 require approval *)
  if AutonomyLevel_eqb autonomy_level L0_Ask || AutonomyLevel_eqb autonomy_level L1_Draft
  then true
  (* L2 and L3 don't require approval *)
  else false.

(** The amount one scope adds to [risk] in the loop of
    [_calculate_scope_risk]. *)
Definition _scope_increment (scope : string) : Q :=
  if String.eqb scope "*" || Py.startswith scope "admin." then 0.8%Q
  else if Py.contains ".write" scope || Py.contains ":write" scope then 0.4%Q
  else if Py.startswith scope "github." then 0.3%Q
  else if Py.startswith scope "notion." || Py.startswith scope "google." then 0.2%Q
  else if Py.contains ".read" scope || Py.contains ":read" scope then 0.1%Q
  else if Py.startswith scope "local." then 0.05%Q
  else 0.15%Q.

Definition _calculate_scope_risk (scopes : list string) : Q :=
  let risk := fold_left (fun risk scope => (risk + _scope_increment scope)%Q) scopes 0.0%Q in
  Py.min risk 1.0%Q.

Definition _scope_matches_any (required : string) (granted_scopes : list string) : bool :=
  existsb (fun granted => Scopes.scope_matches required granted) granted_scopes.

Definition assess_risk_score (plan : ExecutionPlan) (user : User) : Q :=
  let risk := 0.0%Q in
  (* Factor 1: Tool-based risk *)
  let risk :=
    fold_left (fun risk tool => (risk + calculate_tool_risk tool [])%Q)
              (tools_used plan) risk in
  (* Factor 2: Scope-based risk *)
  let scope_risk := _calculate_scope_risk (required_scopes plan) in
  let risk := (risk + scope_risk)%Q in
  (* Factor 3: User trust level (modifies total risk) *)
  let trust_modifier := get_user_trust_level user in
  let risk := (risk * (1 - trust_modifier * 0.2))%Q in
  (* Factor 4: Complexity (number of steps) *)
  let risk :=
    if (1 <? length (steps plan))%nat then
      let complexity_risk :=
        Py.min ((inject_Z (Z.of_nat (length (steps plan))) - 1) * 0.1)%Q 0.3%Q in
      (risk + complexity_risk)%Q
    else risk in
  (* Normalize to 0.0-1.0 range *)
  let risk := Py.min risk 1.0%Q in
  let risk := Py.max risk 0.0%Q in
  risk.

Section Guard.

(** [list(set(required))]: the order in which a set of strings is
    listed is not fixed by the language; it is the same for equal
    contents within one run. *)
Variable list_of_set : list string -> list string.

Definition _extract_required_scopes (request : ActRequest) : list string :=
  let required : list string := [] in
  let goal_lower := Py.lower (goal request) in
  (* Notion *)
  let required :=
    if Py.contains "notion" goal_lower then
      if Py.any_in ["create"; "update"; "write"; "add"] goal_lower
      then (required ++ ["notion.write"])%list
      else (required ++ ["notion.read"])%list
    else required in
  (* GitHub *)
  let required :=
    if Py.contains "github" goal_lower || Py.contains "git" goal_lower then
      if Py.any_in ["create"; "update"; "push"; "commit"; "issue"] goal_lower
      then (required ++ ["github.write"])%list
      else (required ++ ["github.read"])%list
    else required in
  (* Google *)
  let required :=
    if Py.contains "google" goal_lower || Py.contains "gmail" goal_lower
       || Py.contains "drive" goal_lower then
      if Py.any_in ["send"; "create"; "update"; "write"] goal_lower
      then (required ++ ["google.write"])%list
      else (required ++ ["google.read"])%list
    else required in
  (* Local tools (always safe) *)
  let required :=
    if Py.contains "summarize" goal_lower || Py.contains "analyze" goal_lower
    then (required ++ ["local.summarize"])%list
    else required in
  (* If no specific scopes detected, default to read-only local *)
  let required :=
    match required with
    | [] => (required ++ ["local.read"])%list
    | _ => required
    end in
  list_of_set required.

Definition _create_execution_plan (request : ActRequest) : ExecutionPlan :=
  let tools : list string := [] in
  let goal_lower := Py.lower (goal request) in
  let tools :=
    if Py.contains "github" goal_lower
    then (tools ++ ["adapters_github.search_issues"])%list else tools in
  let tools :=
    if Py.contains "notion" goal_lower
    then (tools ++ ["adapters_notion.create_page"])%list else tools in
  let tools :=
    if Py.contains "summarize" goal_lower
    then (tools ++ ["local.summarize_text"])%list else tools in
  let tools :=
    if Py.contains "google" goal_lower || Py.contains "gmail" goal_lower
    then (tools ++ ["adapters_google.send_email"])%list else tools in
  (* Default to at least one step *)
  let tools :=
    match tools with
    | [] => ["local.process"]
    | _ => tools
    end in
  let required_scopes := _extract_required_scopes request in
  {| steps := List.map (fun tool => {| tool := tool; input := ∅ |}) tools;
     tools_used := tools;
     required_scopes := required_scopes |}.

(** [validate_request], with the method it calls as
    [self.assess_risk_score] as a parameter. *)
Definition validate_request_with
    (assess_risk_score : ExecutionPlan -> User -> Q)
    (self : PolicyGuard) (request : ActRequest) (user : User)
    : option Result.PolicyValidationResult :=
  (* Extract required scopes from goal and context *)
  let required_scopes := _extract_required_scopes request in
  (* Check scope permissions *)
  let has_permissions := check_scope_permissions required_scopes (scopes user) in
  let missing_scopes :=
    List.filter (fun scope => negb (_scope_matches_any scope (scopes user)))
                required_scopes in
  (* If missing scopes, deny request *)
  if negb has_permissions then
    Result.PolicyValidationResult_new
      false L0_Ask 1.0%Q true required_scopes missing_scopes
      (Some ("Missing required scopes: " ++ Py.join ", " missing_scopes))
  else
    (* Create execution plan from request *)
    let plan := _create_execution_plan request in
    (* Assess risk score *)
    let risk_score := assess_risk_score plan user in
    (* Determine autonomy level *)
    let autonomy_level := determine_autonomy_level self request user risk_score in
    (* Check if approval is required *)
    let requires_approval := requires_approval autonomy_level risk_score in
    (* Allow request *)
    Result.PolicyValidationResult_new
      true autonomy_level risk_score requires_approval required_scopes [] None.

Definition validate_request
    (self : PolicyGuard) (request : ActRequest) (user : User)
    : option Result.PolicyValidationResult :=
  validate_request_with assess_risk_score self request user.

End Guard.

(** *** Legacy compatibility *)

Record PolicyViolation : Type := mkPolicyViolation {
  rule : string;
  severity : string;
  details : string
}.

(** The dict [{"goal": goal, "context": context}]. *)
Record ApprovedPlan : Type := mkApprovedPlan {
  plan_goal : string;
  plan_context : gmap string string
}.

Section Legacy.

Variable list_of_set : list string -> list string.

(** The legacy [policy_guard] function.  [settings] is the [Settings()] it
    constructs; [None] stands for an exception of [validate_request] passing
    through. *)
Definition policy_guard (settings : Settings) (actor goal : string)
    (context : gmap string string)
    : option (ApprovedPlan * list PolicyViolation * list string * AutonomyLevel) :=
  (* Create minimal user and request *)
  let user := {| user_id := actor; scopes := ["*"] |} in
  let request := {| Models.actor := actor; Models.goal := goal;
                    Models.context := context; dry_run := false |} in
  (* Validate with new PolicyGuard *)
  let guard := __init__ settings in
  match validate_request list_of_set guard request user with
  | None => None
  | Some result =>
      (* Convert to legacy format *)
      let approved_plan := {| plan_goal := goal; plan_context := context |} in
      let violations : list PolicyViolation := [] in
      let violations :=
        if negb (Result.allowed result) then
          (violations ++
           [{| rule := "scope_check";
               severity := "error";
               details := match Result.reason result with
                          | Some r => if String.eqb r "" then "Policy violation" else r
                          | None => "Policy violation"
                          end |}])%list
        else violations in
      let redactions : list string := [] in
      Some (approved_plan, violations, redactions, Result.autonomy_level result)
  end.

End Legacy.

End PolicyGuard.

(** ** apps/core_api/routers/approvals.py *)

Module Approvals.

(** The JSON values that occur in an approval record. *)
Inductive json : Type :=
| JNull
| JString (s : string)
| JNumber (q : Q)
| JStrings (l : list string).

(** *** The Redis commands the router uses

    A key holds a value and, when it was written with an expiry, the
    seconds it still has to live.  The value stored under an approval key
    is the [json.dumps] of a dict and is read back with [json.loads]; the
    store holds the dict itself. *)
Record entry : Type := mkEntry {
  value : gmap string json;
  expire : option Z
}.

(** [GET key] *)
Definition redis_get (redis : gmap string entry) (key : string)
    : option (gmap string json) :=
  value <$> redis !! key.

(** [TTL key]: -2 for a missing key, -1 for a key without expiry. *)
Definition redis_ttl (redis : gmap string entry) (key : string) : Z :=
  match redis !! key with
  | None => -2
  | Some e =>
      match expire e with
      | None => -1
      | Some seconds => seconds
      end
  end.

(** [SETEX key seconds value] *)
Definition redis_setex (redis : gmap string entry) (key : string) (seconds : Z)
    (v : gmap string json) : gmap string entry :=
  <[key := {| value := v; expire := Some seconds |}]> redis.

(** The keyspace once [dt] seconds have passed: keys whose time to live
    has run out are gone. *)
Definition redis_elapse (dt : Z) (redis : gmap string entry) : gmap string entry :=
  omap (fun e =>
          match expire e with
          | None => Some e
          | Some seconds =>
              if (dt <? seconds)%Z
              then Some {| value := value e; expire := Some (seconds - dt)%Z |}
              else None
          end) redis.

(** *** Request and response models *)

Inductive action_t : Type := approve | reject.

Record ApprovalRequest : Type := mkApprovalRequest {
  action : action_t;
  reason : option string
}.

Record ApprovalResponse : Type := mkApprovalResponse {
  run_id : string;
  status : string;
  approved_at : option string;
  approved_by : option string;
  rejected_at : option string;
  rejected_by : option string;
  response_reason : option string
}.

Record HTTPException : Type := mkHTTPException {
  status_code : Z;
  detail : string
}.

Definition HTTP_400_BAD_REQUEST : Z := 400.
Definition HTTP_404_NOT_FOUND : Z := 404.

(** [json.dumps] of an optional string, and the way back. *)
Definition json_of_option (o : option string) : json :=
  match o with
  | Some s => JString s
  | None => JNull
  end.

Definition option_of_json (o : option json) : option string :=
  match o with
  | Some (JString s) => Some s
  | _ => None
  end.

(** [str(x)] inside the f-string of the 400 detail. *)
Definition status_text (o : option json) : string :=
  match o with
  | Some (JString s) => s
  | _ => "None"
  end.

(** [approval_data.get("status") != "pending"] *)
Definition not_pending (approval_data : gmap string json) : bool :=
  match approval_data !! "status" with
  | Some (JString s) => negb (String.eqb s "pending")
  | _ => true
  end.

(** [approve_run].  [user_id] is [user.user_id] of the authenticated user
    and [now] is [datetime.now(timezone.utc).isoformat()].  The result is the
    raised [HTTPException] or the response, and the keyspace afterwards. *)
Definition approve_run (run_id : string) (request : ApprovalRequest)
    (user_id : string) (now : string) (redis : gmap string entry)
    : (HTTPException + ApprovalResponse) * gmap string entry :=
  (* Get existing approval data *)
  let key := "approval:" ++ run_id in
  match redis_get redis key with
  | None =>
      (inl {| status_code := HTTP_404_NOT_FOUND;
              detail := "Approval request not found for run_id: " ++ run_id |},
       redis)
  | Some approval_data =>
      (* Check if already approved/rejected *)
      if not_pending approval_data then
        (inl {| status_code := HTTP_400_BAD_REQUEST;
                detail := "Run is already " ++ status_text (approval_data !! "status") |},
         redis)
      else
        (* Update approval data *)
        let approval_data := <["status" := JString "approved"]> approval_data in
        let approval_data := <["approved_by" := JString user_id]> approval_data in
        let approval_data := <["approved_at" := JString now]> approval_data in
        let approval_data := <["reason" := json_of_option (reason request)]> approval_data in
        (* Save updated data (keep TTL) *)
        let ttl := redis_ttl redis key in
        let redis := redis_setex redis key (Z.max ttl 3600) approval_data in
        (inr {| run_id := run_id;
                status := "approved";
                approved_at := Some now;
                approved_by := Some user_id;
                rejected_at := None;
                rejected_by := None;
                response_reason := option_of_json (approval_data !! "reason") |},
         redis)
  end.

(** [reject_run], with the same conventions. *)
Definition reject_run (run_id : string) (request : ApprovalRequest)
    (user_id : string) (now : string) (redis : gmap string entry)
    : (HTTPException + ApprovalResponse) * gmap string entry :=
  (* Get existing approval data *)
  let key := "approval:" ++ run_id in
  match redis_get redis key with
  | None =>
      (inl {| status_code := HTTP_404_NOT_FOUND;
              detail := "Approval request not found for run_id: " ++ run_id |},
       redis)
  | Some approval_data =>
      (* Check if already approved/rejected *)
      if not_pending approval_data then
        (inl {| status_code := HTTP_400_BAD_REQUEST;
                detail := "Run is already " ++ status_text (approval_data !! "status") |},
         redis)
      else
        (* Update approval data *)
        let approval_data := <["status" := JString "rejected"]> approval_data in
        let approval_data := <["rejected_by" := JString user_id]> approval_data in
        let approval_data := <["rejected_at" := JString now]> approval_data in
        let approval_data := <["reason" := json_of_option (reason request)]> approval_data in
        (* Save updated data (keep TTL) *)
        let ttl := redis_ttl redis key in
        let redis := redis_setex redis key (Z.max ttl 3600) approval_data in
        (inr {| run_id := run_id;
                status := "rejected";
                approved_at := None;
                approved_by := None;
                rejected_at := Some now;
                rejected_by := Some user_id;
                response_reason := option_of_json (approval_data !! "reason") |},
         redis)
  end.

(** [create_pending_approval]; [now] and [expires_at] are the ISO
    timestamps the function computes from the clock. *)
Definition create_pending_approval (redis : gmap string entry) (run_id actor goal : string)
    (autonomy_level : string) (risk_score : Q) (required_scopes : list string)
    (timeout_seconds : Z) (now expires_at : string) : gmap string entry :=
  let approval_data : gmap string json :=
    list_to_map
      [("run_id", JString run_id);
       ("actor", JString actor);
       ("goal", JString goal);
       ("status", JString "pending");
       ("autonomy_level", JString autonomy_level);
       ("risk_score", JNumber risk_score);
       ("required_scopes", JStrings required_scopes);
       ("created_at", JString now);
       ("expires_at", JString expires_at)] in
  let key := "approval:" ++ run_id in
  redis_setex redis key timeout_seconds approval_data.

(** [check_approval_status] *)
Definition check_approval_status (redis : gmap string entry) (run_id : string)
    : option string :=
  let key := "approval:" ++ run_id in
  match redis_get redis key with
  | None => None
  | Some approval_data =>
      match approval_data !! "status" with
      | Some (JString s) => Some s
      | _ => Some "pending"
      end
  end.

(** The two decision endpoints, chosen by the route. *)
Definition decide_run (d : action_t) :=
  match d with
  | approve => approve_run
  | reject => reject_run
  end.

Definition HTTP_500_INTERNAL_SERVER_ERROR : Z := 500.


(** *** Field validation of the response models

    Building a pydantic model checks each argument against the declared type
    of its field; a mismatch raises [ValidationError], here [None].  A [str]
    field takes a JSON string, a [float] field a JSON number, a
    [list[str]] field a list of strings, and a [str | None] field a JSON
    string or null. *)

(** [d.get(key, default)] checked as [str]. *)
Definition get_str (d : gmap string json) (key default : string) : option string :=
  match d !! key with
  | None => Some default
  | Some (JString s) => Some s
  | Some _ => None
  end.


(** [d.get(key)] checked as [str | None]. *)
Definition get_optional_str (d : gmap string json) (key : string) : option (option string) :=
  match d !! key with
  | None => Some None
  | Some JNull => Some None
  | Some (JString s) => Some (Some s)
  | Some _ => None
  end.



(** [get_approval_status].  [error_text] is the text [str(e)] of a
    validation error, should one be raised. *)
Definition get_approval_status (run_id : string) (error_text : string)
    (redis : gmap string entry) : HTTPException + ApprovalResponse :=
  (* Get approval data *)
  let key := "approval:" ++ run_id in
  match redis_get redis key with
  | None =>
      inl {| status_code := HTTP_404_NOT_FOUND;
             detail := "Approval request not found for run_id: " ++ run_id |}
  | Some approval_data =>
      match get_str approval_data "status" "pending",
            get_optional_str approval_data "approved_at",
            get_optional_str approval_data "approved_by",
            get_optional_str approval_data "rejected_at",
            get_optional_str approval_data "rejected_by",
            get_optional_str approval_data "reason" with
      | Some status, Some approved_at, Some approved_by,
        Some rejected_at, Some rejected_by, Some reason =>
          inr {| run_id := run_id;
                 status := status;
                 approved_at := approved_at;
                 approved_by := approved_by;
                 rejected_at := rejected_at;
                 rejected_by := rejected_by;
                 response_reason := reason |}
      | _, _, _, _, _, _ =>
          inl {| status_code := HTTP_500_INTERNAL_SERVER_ERROR;
                 detail := "Failed to get approval status: " ++ error_text |}
      end
  end.





End Approvals.

(** ** chad_notifications/webhooks.py *)

Module Webhooks.

Record WebhookNotifier : Type := mkWebhookNotifier {
  timeout_seconds : Z;
  max_retries : Z;
  backoff_base : Z
}.

(** [create_webhook_notifier()] with its default arguments. *)
Definition create_webhook_notifier_default : WebhookNotifier :=
  {| timeout_seconds := 10; max_retries := 3; backoff_base := 2 |}.

(** What the body of the [try] can raise, by the handler that catches it. *)
Inductive exn : Type :=
| TimeoutException    (* httpx.TimeoutException *)
| RequestError        (* any other httpx.RequestError *)
| OtherException.     (* any other Exception *)

(** What one [client.post] does: a response with a status code, or an
    exception. *)
Inductive outcome : Type :=
| Response (status_code : Z)
| Raises (e : exn).

(** The observable effects of a send. *)
Inductive event : Type :=
| Post                (* one client.post call *)
| Sleep (delay : Z).  (* asyncio.sleep(delay) *)

(** [range(n)] *)
Definition range (n : Z) : list Z :=
  List.map Z.of_nat (seq 0 (Z.to_nat n)).

(** The [for attempt in ...] loop of [_send_webhook] over the attempts
    still to come.  [transport k] is what the [k]-th [client.post] of this
    send does, [calls] counts the posts made so far, [trace] collects the
    effects.  The result is [inl e] when exception [e] leaves the function. *)
Fixpoint send_loop (self : WebhookNotifier) (transport : nat -> outcome)
    (attempts : list Z) (calls : nat) (trace : list event)
    : (exn + bool) * list event :=
  match attempts with
  | [] =>
      (* All retries exhausted *)
      (inr false, trace)
  | attempt :: rest =>
      let result := transport calls in
      let calls := S calls in
      let trace := (trace ++ [Post])%list in
      let delivered :=
        match result with
        | Response status_code =>
            (* Check response status *)
            (200 <=? status_code)%Z && (status_code <? 300)%Z
        | Raises TimeoutException => false
        | Raises RequestError => false
        | Raises OtherException => false
        end in
      if delivered then (inr true, trace)
      else
        (* Exponential backoff before retry (skip on last attempt) *)
        let trace :=
          if (attempt <? max_retries self - 1)%Z
          then (trace ++ [Sleep (backoff_base self ^ attempt)%Z])%list
          else trace in
        send_loop self transport rest calls trace
  end.

Definition _send_webhook (self : WebhookNotifier) (transport : nat -> outcome)
    : (exn + bool) * list event :=
  send_loop self transport (range (max_retries self)) 0%nat [].

(** The number of [client.post] calls in a trace. *)
Definition attempts_made (trace : list event) : nat :=
  length (List.filter (fun e => match e with Post => true | Sleep _ => false end) trace).

(** The delays slept, in order. *)
Definition delays (trace : list event) : list Z :=
  flat_map (fun e => match e with Post => [] | Sleep d => [d] end) trace.

End Webhooks.

(** ** The specification's wording, for comparison with the code *)

Module Spec.

(** Per-tool base risk as the specification words it: the first keyword
    class in the order destructive, admin, write, read that has a keyword
    occurring in the (lower-cased) name decides; then the [local.] prefix;
    then the default. *)
Inductive tool_class : Type :=
| Destructive | Admin | Write | Read | Local | Unclassified.

Definition destructive_keywords := ["delete"; "remove"; "drop"; "destroy"; "reset"].
Definition admin_keywords := ["admin"; "configure"; "setup"; "migrate"].
Definition write_keywords := ["create"; "update"; "write"; "send"; "post"; "put"].
Definition read_keywords := ["read"; "get"; "fetch"; "search"; "list"; "query"].

Definition has_keyword (kws : list string) (name : string) : bool :=
  existsb (fun kw => Py.contains kw (Py.lower name)) kws.

Definition classify_tool (name : string) : tool_class :=
  if has_keyword destructive_keywords name then Destructive
  else if has_keyword admin_keywords name then Admin
  else if has_keyword write_keywords name then Write
  else if has_keyword read_keywords name then Read
  else if Py.startswith (Py.lower name) "local." then Local
  else Unclassified.

Definition tool_class_risk (c : tool_class) : Q :=
  match c with
  | Destructive => 0.7%Q
  | Admin => 0.9%Q
  | Write => 0.3%Q
  | Read => 0.1%Q
  | Local => 0.05%Q
  | Unclassified => 0.2%Q
  end.

(** Per-scope classes of the specification. *)
Inductive scope_class : Type :=
| GlobalOrAdmin | WriteMarker | GitHub | NotionOrGoogle | ReadMarker | LocalScope | Unknown.

Definition scope_class_risk (c : scope_class) : Q :=
  match c with
  | GlobalOrAdmin => 0.8%Q
  | WriteMarker => 0.4%Q
  | GitHub => 0.3%Q
  | NotionOrGoogle => 0.2%Q
  | ReadMarker => 0.1%Q
  | LocalScope => 0.05%Q
  | Unknown => 0.15%Q
  end.

Definition is_global_or_admin (scope : string) : bool :=
  String.eqb scope "*" || Py.startswith scope "admin.".
Definition has_write_marker (scope : string) : bool :=
  Py.contains ".write" scope || Py.contains ":write" scope.
Definition has_read_marker (scope : string) : bool :=
  Py.contains ".read" scope || Py.contains ":read" scope.
Definition is_notion_or_google (scope : string) : bool :=
  Py.startswith scope "notion." || Py.startswith scope "google.".

(** The precedence as the specification lists it: global/admin, write
    marker, [github.], [notion.]/[google.], read marker, [local.],
    unclassified. *)
Definition classify_scope (scope : string) : scope_class :=
  if is_global_or_admin scope then GlobalOrAdmin
  else if has_write_marker scope then WriteMarker
  else if Py.startswith scope "github." then GitHub
  else if is_notion_or_google scope then NotionOrGoogle
  else if has_read_marker scope then ReadMarker
  else if Py.startswith scope "local." then LocalScope
  else Unknown.

(** The precedence with the [local.] prefix ranked directly after the
    write marker. *)
Definition classify_scope_local_first (scope : string) : scope_class :=
  if is_global_or_admin scope then GlobalOrAdmin
  else if has_write_marker scope then WriteMarker
  else if Py.startswith scope "local." then LocalScope
  else if Py.startswith scope "github." then GitHub
  else if is_notion_or_google scope then NotionOrGoogle
  else if has_read_marker scope then ReadMarker
  else Unknown.

(** The sum of the rationals of a list. *)
Definition Qsum (l : list Q) : Q := fold_right Qplus 0%Q l.

(** Sum of the per-scope contributions, capped at 1. *)
Definition scope_risk (classify : string -> scope_class) (scopes : list string) : Q :=
  Qmin (Qsum (List.map (fun s => scope_class_risk (classify s)) scopes)) 1%Q.

(** A required scope is satisfied by a list of granted scopes: some
    granted scope is the global wildcard, the scope itself, or a wildcard
    ancestor [p.*] where the scope starts with [p.]. *)
Definition satisfied (required : string) (granted_scopes : list string) : Prop :=
  exists granted, In granted granted_scopes /\
    (granted = "*" \/ granted = required \/
     exists p, granted = p ++ ".*" /\ Py.startswith required (p ++ ".") = true).

(** The status a decision gives a pending approval record, and the
    keys under which it records who decided and when. *)
Definition decided_status (d : Approvals.action_t) : string :=
  match d with
  | Approvals.approve => "approved"
  | Approvals.reject => "rejected"
  end.

Definition decided_by_key (d : Approvals.action_t) : string :=
  match d with
  | Approvals.approve => "approved_by"
  | Approvals.reject => "rejected_by"
  end.

Definition decided_at_key (d : Approvals.action_t) : string :=
  match d with
  | Approvals.approve => "approved_at"
  | Approvals.reject => "rejected_at"
  end.

(** The record a decision leaves: status and decision metadata set. *)
Definition decided_data (d : Approvals.action_t) (request : Approvals.ApprovalRequest)
    (user_id now : string) (approval_data : gmap string Approvals.json)
    : gmap string Approvals.json :=
  <["reason" := Approvals.json_of_option (Approvals.reason request)]>
    (<[decided_at_key d := Approvals.JString now]>
       (<[decided_by_key d := Approvals.JString user_id]>
          (<["status" := Approvals.JString (decided_status d)]> approval_data))).

(** The record is pending. *)
Definition is_pending (approval_data : gmap string Approvals.json) : Prop :=
  approval_data !! "status" = Some (Approvals.JString "pending").

(** The call raised an [HTTPException] with the given status code. *)
Definition raised (code : Z) (res : Approvals.HTTPException + Approvals.ApprovalResponse)
    : Prop :=
  exists detail, res = inl {| Approvals.status_code := code; Approvals.detail := detail |}.

(** A delivery attempt counts as a success exactly when it returns a
    2xx status. *)
Definition delivered (o : Webhooks.outcome) : bool :=
  match o with
  | Webhooks.Response status_code => (200 <=? status_code)%Z && (status_code <? 300)%Z
  | Webhooks.Raises _ => false
  end.

(** The effects of a send whose first [k] attempts fail and are each
    followed by the wait [base ^ attempt], and whose attempt number [k] is the
    last one: no wait follows it. *)
Definition delivery_trace (base : Z) (k : nat) : list Webhooks.event :=
  (flat_map (fun j => [Webhooks.Post; Webhooks.Sleep (base ^ Z.of_nat j)%Z]) (seq 0 k)
   ++ [Webhooks.Post])%list.

(** The effects of one failed attempt inside the loop. *)
Definition attempt_trace (self : Webhooks.WebhookNotifier) (j : nat)
    : list Webhooks.event :=
  Webhooks.Post ::
  (if (Z.of_nat j <? Webhooks.max_retries self - 1)%Z
   then [Webhooks.Sleep (Webhooks.backoff_base self ^ Z.of_nat j)%Z]
   else []).

(** The levels in ascending autonomy: Ask, Draft, ExecuteNotify,
    ExecuteSilent. *)
Definition level_rank (level : Autonomy.AutonomyLevel) : nat :=
  match level with
  | Autonomy.L0_Ask => 0
  | Autonomy.L1_Draft => 1
  | Autonomy.L2_ExecuteNotify => 2
  | Autonomy.L3_ExecuteSilent => 3
  end.

(** A listing of a set of strings: the same members, each once. *)
Definition set_listing (list_of_set : list string -> list string) : Prop :=
  forall l, List.NoDup (list_of_set l) /\ forall x, In x (list_of_set l) <-> In x l.

(** The sum of the integers of a list. *)
Definition Zsum (l : list Z) : Z := fold_right Z.add 0%Z l.

(** The scopes a goal requires, by what the goal mentions: a service
    ([notion], [github], [google]) with or without one of its write verbs, and
    a summary; without any of them, the local read scope. *)
Definition required_for (notion notion_write github github_write
                         google google_write summary : bool) : list string :=
  let required :=
    ((if notion then [if notion_write then "notion.write" else "notion.read"] else [])
     ++ (if github then [if github_write then "github.write" else "github.read"] else [])
     ++ (if google then [if google_write then "google.write" else "google.read"] else [])
     ++ (if summary then ["local.summarize"] else []))%list in
  match required with
  | [] => ["local.read"]
  | _ => required
  end.

(** The tools planned for a goal, by what the goal mentions. *)
Definition tools_for (github notion summarize google : bool) : list string :=
  let tools :=
    ((if github then ["adapters_github.search_issues"] else [])
     ++ (if notion then ["adapters_notion.create_page"] else [])
     ++ (if summarize then ["local.summarize_text"] else [])
     ++ (if google then ["adapters_google.send_email"] else []))%list in
  match tools with
  | [] => ["local.process"]
  | _ => tools
  end.

(** Every scope the guard can require. *)
Definition known_scopes : list string :=
  ["notion.read"; "notion.write"; "github.read"; "github.write";
   "google.read"; "google.write"; "local.summarize"; "local.read"].

End Spec.

(** ** The fixtures of tests/test_policy.py and tests/test_queue.py *)

Module Fixtures.
Import Models.

Definition admin_user : User := {| user_id := "admin"; scopes := ["*"] |}.
Definition standard_user : User :=
  {| user_id := "user123"; scopes := ["notion.*"; "github.read"; "local.*"] |}.
Definition limited_user : User := {| user_id := "limited_user"; scopes := ["local.read"] |}.

Definition request (actor goal : string) (dry_run : bool) : ActRequest :=
  {| actor := actor; goal := goal; context := ∅; dry_run := dry_run |}.

(** The responses of a transport that answers as the list says and with
    500 afterwards. *)
Definition responses (codes : list Z) (k : nat) : Webhooks.outcome :=
  Webhooks.Response (nth k codes 500%Z).

End Fixtures.

(** * Properties *)

(** ** Facts about the built-ins *)

Module PyFacts.

Lemma ltb_spec (a b : Q) : reflect (a < b)%Q (Py.ltb a b).
Proof.
  unfold Py.ltb. destruct (Qle_bool b a) eqn:E; simpl; constructor.
  - apply Qle_bool_iff in E. lra.
  - destruct (Qlt_le_dec a b) as [H | H]; [assumption |].
    apply Qle_bool_iff in H. congruence.
Qed.

Lemma ltb_true (a b : Q) : Py.ltb a b = true <-> (a < b)%Q.
Proof. destruct (ltb_spec a b); split; intros; try easy; lra. Qed.

Lemma ltb_false (a b : Q) : Py.ltb a b = false <-> (b <= a)%Q.
Proof. destruct (ltb_spec a b); split; intros; try easy; lra. Qed.

Lemma min_le_r (a b : Q) : (Py.min a b <= b)%Q.
Proof. unfold Py.min. destruct (ltb_spec b a); lra. Qed.

Lemma min_le_l (a b : Q) : (Py.min a b <= a)%Q.
Proof. unfold Py.min. destruct (ltb_spec b a); lra. Qed.

Lemma min_Qmin (a b : Q) : (Py.min a b == Qmin a b)%Q.
Proof.
  unfold Py.min. destruct (ltb_spec b a).
  - rewrite Q.min_r by lra. reflexivity.
  - rewrite Q.min_l by lra. reflexivity.
Qed.

Lemma max_ge_r (a b : Q) : (b <= Py.max a b)%Q.
Proof. unfold Py.max. destruct (ltb_spec a b); lra. Qed.

Lemma max_le (a b c : Q) : (a <= c)%Q -> (b <= c)%Q -> (Py.max a b <= c)%Q.
Proof. unfold Py.max. destruct (ltb_spec a b); lra. Qed.

Lemma mem_In (x : string) (l : list string) : Py.mem x l = true <-> In x l.
Proof.
  unfold Py.mem. rewrite existsb_exists. split.
  - intros (y & Hy & E). apply String.eqb_eq in E. now subst.
  - intros H. exists x. split; [assumption | apply String.eqb_refl].
Qed.

Lemma startswith_app (p s : string) : Py.startswith (p ++ s) p = true.
Proof.
  induction p as [|c p IH]; simpl.
  - now destruct s.
  - now rewrite Ascii.eqb_refl.
Qed.

End PyFacts.

(** ** Approval requirement and autonomy level *)

Module AutonomyFacts.
Import Models Autonomy PolicyGuard.

Lemma requires_approval_true_iff (level : AutonomyLevel) (r : Q) :
  requires_approval level r = true <-> level = L0_Ask \/ level = L1_Draft.
Proof.
  split.
  - destruct level; simpl; intros H; auto; discriminate.
  - intros [-> | ->]; reflexivity.
Qed.

(** C4. For each of the four autonomy levels and every risk score,
    [requires_approval] is true exactly for [L0_Ask] and [L1_Draft]; its
    value does not depend on the risk score, and it agrees with
    [requires_plan_approval] of autonomy.py. *)
Theorem requires_approval_exhaustive :
  (forall r, requires_approval L0_Ask r = true) /\
  (forall r, requires_approval L1_Draft r = true) /\
  (forall r, requires_approval L2_ExecuteNotify r = false) /\
  (forall r, requires_approval L3_ExecuteSilent r = false) /\
  (forall level r,
      requires_approval level r = true <-> level = L0_Ask \/ level = L1_Draft) /\
  (forall level r r', requires_approval level r = requires_approval level r') /\
  (forall level r, requires_approval level r = requires_plan_approval level).
Proof.
  repeat split; try reflexivity; try apply requires_approval_true_iff.
  destruct level; reflexivity.
Qed.

(** The decision cascade for arbitrary thresholds. *)
Lemma determine_autonomy_level_cascade (self : PolicyGuard.PolicyGuard)
    (request : ActRequest) (user : User) (r : Q) :
  determine_autonomy_level self request user r =
    if Py.mem "*" (scopes user) && Py.ltb r (risk_threshold_l1 self) then L3_ExecuteSilent
    else if dry_run request then L2_ExecuteNotify
    else if Py.ltb r (risk_threshold_l3 self) then L3_ExecuteSilent
    else if Py.ltb r (risk_threshold_l2 self) then L2_ExecuteNotify
    else if Py.ltb r (risk_threshold_l1 self) then L1_Draft
    else L0_Ask.
Proof. reflexivity. Qed.

(** C3. With the default thresholds 0.3, 0.6 and 0.8: a holder of the
    global scope whose risk is below 0.8 gets [L3_ExecuteSilent]; otherwise a
    dry run gets [L2_ExecuteNotify] whatever the risk; otherwise the level is
    [L3_ExecuteSilent] below 0.3, [L2_ExecuteNotify] below 0.6, [L1_Draft]
    below 0.8 and [L0_Ask] from 0.8 on. *)
Theorem determine_autonomy_level_precedence (request : ActRequest) (user : User) (r : Q) :
  let level := determine_autonomy_level default_guard request user r in
  (risk_threshold_l3 default_guard == 0.3)%Q /\
  (risk_threshold_l2 default_guard == 0.6)%Q /\
  (risk_threshold_l1 default_guard == 0.8)%Q /\
  (In "*" (scopes user) /\ (r < 0.8)%Q -> level = L3_ExecuteSilent) /\
  (~ (In "*" (scopes user) /\ (r < 0.8)%Q) ->
     (dry_run request = true -> level = L2_ExecuteNotify) /\
     (dry_run request = false ->
        ((r < 0.3)%Q -> level = L3_ExecuteSilent) /\
        ((0.3 <= r)%Q /\ (r < 0.6)%Q -> level = L2_ExecuteNotify) /\
        ((0.6 <= r)%Q /\ (r < 0.8)%Q -> level = L1_Draft) /\
        ((0.8 <= r)%Q -> level = L0_Ask))).
Proof.
  intros level. subst level. rewrite determine_autonomy_level_cascade.
  change (risk_threshold_l3 default_guard) with 0.3%Q.
  change (risk_threshold_l2 default_guard) with 0.6%Q.
  change (risk_threshold_l1 default_guard) with 0.8%Q.
  split; [reflexivity|]. split; [reflexivity|]. split; [reflexivity|].
  split.
  - intros [Hin Hr]. apply PyFacts.mem_In in Hin. rewrite Hin.
    apply PyFacts.ltb_true in Hr. now rewrite Hr.
  - intros Hn.
    assert (Py.mem "*" (scopes user) && Py.ltb r 0.8 = false) as ->.
    { apply not_true_is_false. intros H. apply andb_true_iff in H as [H1 H2].
      apply Hn. split; [now apply PyFacts.mem_In | now apply PyFacts.ltb_true]. }
    split; [intros ->; reflexivity|]. intros ->.
    destruct (PyFacts.ltb_spec r 0.3), (PyFacts.ltb_spec r 0.6), (PyFacts.ltb_spec r 0.8);
      repeat split; intros; try reflexivity; exfalso; lra.
Qed.

End AutonomyFacts.

(** ** Tool risk and scope risk *)

Module RiskFacts.
Import Models Autonomy PolicyGuard.

(** C6. With no capabilities, [calculate_tool_risk] returns the base
    risk of the name's keyword class, classes taken in the order
    destructive (0.7), admin (0.9), write (0.3), read (0.1), then the
    [local.] prefix (0.05), then the default 0.2; the two sample names give
    0.7 and 0.05. *)
Theorem calculate_tool_risk_base (name : string) :
  calculate_tool_risk name [] = Spec.tool_class_risk (Spec.classify_tool name) /\
  calculate_tool_risk "adapters_github.delete_issue" [] = 0.7%Q /\
  calculate_tool_risk "local.summarize_text" [] = 0.05%Q.
Proof.
  split; [| split; reflexivity].
  unfold calculate_tool_risk, Spec.classify_tool, Spec.has_keyword, Py.any_in,
    Spec.destructive_keywords, Spec.admin_keywords, Spec.write_keywords,
    Spec.read_keywords.
  destruct (existsb _ ["delete"; "remove"; "drop"; "destroy"; "reset"]); [reflexivity|].
  destruct (existsb _ ["admin"; "configure"; "setup"; "migrate"]); [reflexivity|].
  destruct (existsb _ ["create"; "update"; "write"; "send"; "post"; "put"]); [reflexivity|].
  destruct (existsb _ ["read"; "get"; "fetch"; "search"; "list"; "query"]); [reflexivity|].
  destruct (Py.startswith _ "local."); reflexivity.
Qed.

(** The accumulating loop computes the sum of the increments. *)
Lemma fold_left_Qsum {A : Type} (f : A -> Q) (l : list A) (a : Q) :
  (fold_left (fun risk x => risk + f x) l a == a + Spec.Qsum (List.map f l))%Q.
Proof.
  revert a. induction l as [|x l IH]; intros a; simpl.
  - ring.
  - rewrite IH. ring.
Qed.

Lemma loop_Qsum {A : Type} (f : A -> Q) (l : list A) :
  (fold_left (fun risk x => risk + f x) l 0.0 == Spec.Qsum (List.map f l))%Q.
Proof.
  rewrite fold_left_Qsum.
  assert (0.0 == 0)%Q as -> by reflexivity. apply Qplus_0_l.
Qed.

Lemma min_compat (a b : Q) : (a == b)%Q -> (Py.min a 1.0 == Qmin b 1)%Q.
Proof.
  intros H. rewrite PyFacts.min_Qmin. rewrite H.
  assert (1.0 == 1)%Q as -> by reflexivity. reflexivity.
Qed.

Lemma scope_increment_class (scope : string) :
  scope_increment scope = Spec.scope_class_risk (Spec.classify_scope_local_first scope).
Proof.
  unfold scope_increment, Spec.classify_scope_local_first, Spec.is_global_or_admin,
    Spec.has_write_marker, Spec.is_notion_or_google, Spec.has_read_marker.
  repeat match goal with |- context [if ?b then _ else _] => destruct b end; reflexivity.
Qed.


Lemma calculate_scope_risk_sum (scopes : list string) :
  (calculate_scope_risk scopes ==
   Spec.scope_risk Spec.classify_scope_local_first scopes)%Q.
Proof.
  unfold calculate_scope_risk, Spec.scope_risk. apply min_compat.
  rewrite loop_Qsum.
  induction scopes as [|s l IH]; simpl; [reflexivity|].
  now rewrite IH, scope_increment_class.
Qed.


(** C7, as stated, fails: with the read marker ranked above the
    [local.] prefix the scope [local.read] would contribute 0.1, and
    [calculate_scope_risk] returns 0.05 for it. *)
Lemma calculate_scope_risk_not_spec_order :
  ~ (calculate_scope_risk ["local.read"] ==
     Spec.scope_risk Spec.classify_scope ["local.read"])%Q.
Proof. intros H. vm_compute in H. discriminate. Qed.

(** C7, amended. [calculate_scope_risk] returns the sum of the
    per-scope contributions, capped at 1, where a scope is classified in the
    order: global [*] or [admin.] prefix (0.8), write marker (0.4),
    [local.] prefix (0.05), [github.] prefix (0.3), [notion.] or [google.]
    prefix (0.2), read marker (0.1), otherwise 0.15.  The result for
    [admin.*] and for [*] is 0.8, and no list gives more than 1. *)
Theorem calculate_scope_risk_local_first (scopes : list string) :
  (calculate_scope_risk scopes ==
   Qmin (Spec.Qsum (List.map (fun s => Spec.scope_class_risk
                                     (Spec.classify_scope_local_first s)) scopes)) 1)%Q /\
  (calculate_scope_risk scopes <= 1)%Q /\
  (calculate_scope_risk ["admin.*"] == 0.8)%Q /\
  (calculate_scope_risk ["*"] == 0.8)%Q /\
  (calculate_scope_risk ["*"; "admin.*"; "admin.users"] == 1)%Q.
Proof.
  split; [apply calculate_scope_risk_sum|].
  split.
  { unfold calculate_scope_risk.
    eapply Qle_trans; [apply PyFacts.min_le_r | vm_compute; discriminate]. }
  repeat split; vm_compute; reflexivity.
Qed.

(** C9. On the scope list [["local.read"]], the required scopes of a
    request that names no service, [calculate_scope_risk] of autonomy.py
    returns 0.05 and [_calculate_scope_risk] of the guard returns 0.1: the
    two are different functions. *)
Theorem scope_risk_implementations_differ :
  (calculate_scope_risk ["local.read"] == 0.05)%Q /\
  (_calculate_scope_risk ["local.read"] == 0.1)%Q /\
  ~ (forall scopes, (calculate_scope_risk scopes == _calculate_scope_risk scopes)%Q).
Proof.
  split; [vm_compute; reflexivity|].
  split; [vm_compute; reflexivity|].
  intros H. specialize (H ["local.read"]). vm_compute in H. discriminate.
Qed.

(** The two disagree only on [local.] scopes that carry a read marker. *)
Lemma scope_increments_agree (scope : string) :
  Py.startswith scope "local." && Spec.has_read_marker scope = false ->
  scope_increment scope = _scope_increment scope.
Proof.
  unfold scope_increment, _scope_increment, Spec.has_read_marker.
  intros H.
  destruct (String.eqb scope "*" || Py.startswith scope "admin."); [reflexivity|].
  destruct (Py.contains ".write" scope || Py.contains ":write" scope); [reflexivity|].
  destruct (Py.startswith scope "local.") eqn:El.
  - simpl in H. rewrite H.
    destruct scope as [|c s]; [discriminate|].
    cbn [Py.startswith] in El. apply andb_true_iff in El as [Ec _].
    apply Ascii.eqb_eq in Ec. subst c. reflexivity.
  - reflexivity.
Qed.

(** Away from such scopes the two implementations return the same value. *)
Lemma scope_risk_implementations_agree (scopes : list string) :
  Forall (fun scope => Py.startswith scope "local." && Spec.has_read_marker scope = false)
         scopes ->
  calculate_scope_risk scopes = _calculate_scope_risk scopes.
Proof.
  intros H. unfold calculate_scope_risk, _calculate_scope_risk. f_equal.
  generalize 0.0%Q as risk.
  induction H as [|scope l Hs Hl IH]; intros risk; [reflexivity|].
  cbn [fold_left]. rewrite (scope_increments_agree scope Hs). apply IH.
Qed.

End RiskFacts.

(** ** Scope matching *)

Module ScopeFacts.
Import Models PolicyGuard.

Lemma append_nil (p : string) : "" ++ p = p.
Proof. reflexivity. Qed.

Lemma append_cons (c : ascii) (q p : string) : String c q ++ p = String c (q ++ p).
Proof. reflexivity. Qed.

Lemma endswith_app (s p : string) :
  Py.endswith s p = true <-> exists q, s = q ++ p.
Proof.
  induction s as [|c s IH]; cbn [Py.endswith].
  - rewrite orb_false_r, String.eqb_eq. split.
    + intros <-. now exists "".
    + intros [[|c q] H]; [now rewrite append_nil in H|].
      rewrite append_cons in H. discriminate.
  - rewrite orb_true_iff, String.eqb_eq. split.
    + intros [H | H].
      * exists "". now rewrite append_nil.
      * apply IH in H as [q ->]. exists (String c q). now rewrite append_cons.
    + intros [[|c' q] H].
      * left. now rewrite append_nil in H.
      * right. rewrite append_cons in H. inversion H; subst.
        apply IH. now exists q.
Qed.

Lemma but_last_wildcard (p : string) : Scopes.but_last (p ++ ".*") = p ++ ".".
Proof.
  induction p as [|c p IH]; [reflexivity|].
  rewrite !append_cons, <- IH. cbn [Scopes.but_last].
  destruct (p ++ ".*") eqn:E; [| reflexivity].
  destruct p; [rewrite append_nil in E | rewrite append_cons in E]; discriminate.
Qed.

(** The three ways a granted scope satisfies a required one. *)
Lemma scope_matches_cases (required granted : string) :
  Scopes.scope_matches required granted = true <->
  granted = "*" \/ granted = required \/
  exists p, granted = p ++ ".*" /\ Py.startswith required (p ++ ".") = true.
Proof.
  unfold Scopes.scope_matches.
  rewrite !orb_true_iff, andb_true_iff, !String.eqb_eq, endswith_app. split.
  - intros [[H | H] | [[p Hp] H]]; auto.
    right. right. exists p. split; [assumption|].
    now rewrite Hp, but_last_wildcard in H.
  - intros [H | [H | (p & Hp & H)]]; auto.
    right. split; [now exists p|]. now rewrite Hp, but_last_wildcard.
Qed.

Lemma _scope_matches_any_satisfied (required : string) (granted_scopes : list string) :
  _scope_matches_any required granted_scopes = true <->
  Spec.satisfied required granted_scopes.
Proof.
  unfold _scope_matches_any, Spec.satisfied. rewrite existsb_exists.
  split; intros (g & Hin & H); exists g; (split; [assumption|]);
    now apply scope_matches_cases.
Qed.

Lemma forallb_false {A : Type} (f : A -> bool) (l : list A) :
  forallb f l = false <-> exists x, In x l /\ f x = false.
Proof.
  induction l as [|a l IH]; simpl.
  - split; [discriminate | intros (x & [] & _)].
  - rewrite andb_false_iff, IH. split.
    + intros [H | (x & Hin & H)]; [exists a | exists x]; auto.
    + intros (x & [-> | Hin] & H); [left | right; exists x]; auto.
Qed.

(** The permission check fails exactly when a required scope is not
    satisfied. *)
Lemma check_scope_permissions_false (required_scopes user_scopes : list string) :
  check_scope_permissions required_scopes user_scopes = false <->
  exists scope, In scope required_scopes /\ ~ Spec.satisfied scope user_scopes.
Proof.
  unfold check_scope_permissions, Scopes.check_scopes. rewrite forallb_false.
  split; intros (s & Hin & H); exists s; (split; [assumption|]).
  - intros Hs. apply _scope_matches_any_satisfied in Hs.
    change (existsb (Scopes.scope_matches s) user_scopes = true) in Hs. congruence.
  - apply not_true_is_false. intros Hs. apply H.
    now apply _scope_matches_any_satisfied.
Qed.

(** The scopes reported missing are the required scopes that are not
    satisfied. *)
Lemma missing_scopes_unsatisfied (required_scopes user_scopes : list string) (s : string) :
  In s (List.filter (fun scope => negb (_scope_matches_any scope user_scopes))
                    required_scopes) <->
  In s required_scopes /\ ~ Spec.satisfied s user_scopes.
Proof.
  rewrite filter_In, negb_true_iff, <- _scope_matches_any_satisfied.
  split; intros [H1 H2]; (split; [assumption|]).
  - congruence.
  - now apply not_true_is_false.
Qed.

End ScopeFacts.

(** ** Request validation *)

Module GuardFacts.
Import Models Autonomy PolicyGuard.

Lemma assess_risk_score_range (plan : ExecutionPlan) (user : User) :
  (0 <= assess_risk_score plan user <= 1)%Q.
Proof.
  unfold assess_risk_score.
  set (risk := if (1 <? length (steps plan))%nat then _ else _).
  split.
  - eapply Qle_trans; [| apply PyFacts.max_ge_r]. vm_compute; discriminate.
  - apply PyFacts.max_le; [| vm_compute; discriminate].
    eapply Qle_trans; [apply PyFacts.min_le_r | vm_compute; discriminate].
Qed.

Lemma PolicyValidationResult_new_in_range
    (allowed : bool) (level : AutonomyLevel) (risk_score : Q) (approval : bool)
    (required missing : list string) (reason : option string) :
  (0 <= risk_score <= 1)%Q ->
  Result.PolicyValidationResult_new allowed level risk_score approval required missing reason
  = Some (Result.mkPolicyValidationResult allowed level risk_score approval
            required missing reason).
Proof.
  intros [H0 H1]. unfold Result.PolicyValidationResult_new.
  assert (Qle_bool 0.0 risk_score = true) as ->.
  { apply Qle_bool_iff. eapply Qle_trans; [| exact H0]. vm_compute; discriminate. }
  assert (Qle_bool risk_score 1.0 = true) as ->.
  { apply Qle_bool_iff. eapply Qle_trans; [exact H1 |]. vm_compute; discriminate. }
  reflexivity.
Qed.

(** C1. When some required scope extracted from the request is not
    satisfied by the user's scopes, [validate_request] returns the denial:
    not allowed, [L0_Ask], risk score 1.0, approval required, and as missing
    scopes the required scopes that are not satisfied.  The result is the
    same whatever the risk assessment would compute. *)
Theorem validate_request_denied
    (list_of_set : list string -> list string)
    (assess : ExecutionPlan -> User -> Q)
    (self : PolicyGuard.PolicyGuard) (request : ActRequest) (user : User) :
  (exists scope, In scope (_extract_required_scopes list_of_set request) /\
                 ~ Spec.satisfied scope (scopes user)) ->
  let required := _extract_required_scopes list_of_set request in
  let missing :=
    List.filter (fun scope => negb (_scope_matches_any scope (scopes user))) required in
  validate_request_with list_of_set assess self request user =
    Some {| Result.allowed := false;
            Result.autonomy_level := L0_Ask;
            Result.risk_score := 1.0%Q;
            Result.requires_approval := true;
            Result.required_scopes := required;
            Result.missing_scopes := missing;
            Result.reason :=
              Some ("Missing required scopes: " ++ Py.join ", " missing) |} /\
  validate_request list_of_set self request user =
    validate_request_with list_of_set assess self request user /\
  (forall s, In s missing <-> In s required /\ ~ Spec.satisfied s (scopes user)).
Proof.
  intros H required missing.
  apply ScopeFacts.check_scope_permissions_false in H.
  unfold validate_request, validate_request_with. cbv zeta.
  rewrite H. cbn [negb].
  split; [reflexivity|]. split; [reflexivity|].
  intros s. apply ScopeFacts.missing_scopes_unsatisfied.
Qed.

(** C10. [validate_request] always returns a result, and the result
    satisfies: allowed exactly when no scope is missing; approval required
    exactly when the level is [L0_Ask] or [L1_Draft]; risk score within
    [0, 1]. *)
Theorem validate_request_invariants
    (list_of_set : list string -> list string)
    (self : PolicyGuard.PolicyGuard) (request : ActRequest) (user : User) :
  exists result,
    validate_request list_of_set self request user = Some result /\
    (Result.allowed result = true <-> Result.missing_scopes result = []) /\
    (Result.requires_approval result = true <->
     Result.autonomy_level result = L0_Ask \/ Result.autonomy_level result = L1_Draft) /\
    (0 <= Result.risk_score result <= 1)%Q.
Proof.
  unfold validate_request, validate_request_with. cbv zeta.
  set (required := _extract_required_scopes list_of_set request).
  destruct (check_scope_permissions required (scopes user)) eqn:E; cbn [negb].
  - rewrite PolicyValidationResult_new_in_range by apply assess_risk_score_range.
    eexists. split; [reflexivity|]. cbn.
    split; [tauto|]. split; [apply AutonomyFacts.requires_approval_true_iff|].
    apply assess_risk_score_range.
  - eexists. split; [reflexivity|]. cbn.
    split; [| split].
    + split; [discriminate|]. intros Hnil. exfalso.
      apply ScopeFacts.check_scope_permissions_false in E as (s & Hin & Hs).
      assert (In s []) as [].
      rewrite <- Hnil. apply ScopeFacts.missing_scopes_unsatisfied. auto.
    + split; auto.
    + split; vm_compute; discriminate.
Qed.

End GuardFacts.

(** ** Approval decisions *)

Module ApprovalFacts.
Import Approvals.

Lemma not_pending_false (approval_data : gmap string json) :
  not_pending approval_data = false <-> Spec.is_pending approval_data.
Proof.
  unfold not_pending, Spec.is_pending.
  destruct (approval_data !! "status") as [[| s | |]|]; split; try discriminate.
  - rewrite negb_false_iff, String.eqb_eq. now intros ->.
  - intros [= ->]. reflexivity.
Qed.

Lemma not_pending_true (approval_data : gmap string json) :
  not_pending approval_data = true <-> ~ Spec.is_pending approval_data.
Proof.
  rewrite <- not_pending_false. destruct (not_pending approval_data); split; congruence.
Qed.

Lemma decide_run_not_found (d : action_t) (run_id : string) (request : ApprovalRequest)
    (user_id now : string) (redis : gmap string entry) :
  redis !! ("approval:" ++ run_id) = None ->
  decide_run d run_id request user_id now redis =
    (inl {| status_code := 404;
            detail := "Approval request not found for run_id: " ++ run_id |}, redis).
Proof.
  intros H. destruct d; unfold decide_run, approve_run, reject_run, redis_get;
    rewrite H; reflexivity.
Qed.

Lemma decide_run_not_pending (d : action_t) (run_id : string) (request : ApprovalRequest)
    (user_id now : string) (redis : gmap string entry) (e : entry) :
  redis !! ("approval:" ++ run_id) = Some e ->
  ~ Spec.is_pending (value e) ->
  decide_run d run_id request user_id now redis =
    (inl {| status_code := 400;
            detail := "Run is already " ++ status_text (value e !! "status") |}, redis).
Proof.
  intros H Hp. apply not_pending_true in Hp.
  destruct d; unfold decide_run, approve_run, reject_run, redis_get;
    rewrite H; cbn [fmap option_fmap option_map]; rewrite Hp; reflexivity.
Qed.

Lemma decide_run_pending (d : action_t) (run_id : string) (request : ApprovalRequest)
    (user_id now : string) (redis : gmap string entry) (e : entry) :
  redis !! ("approval:" ++ run_id) = Some e ->
  Spec.is_pending (value e) ->
  exists resp,
    decide_run d run_id request user_id now redis =
      (inr resp,
       <["approval:" ++ run_id :=
           {| value := Spec.decided_data d request user_id now (value e);
              expire := Some (Z.max (redis_ttl redis ("approval:" ++ run_id)) 3600) |}]>
         redis) /\
    status resp = Spec.decided_status d.
Proof.
  intros H Hp. apply not_pending_false in Hp.
  destruct d; unfold decide_run, approve_run, reject_run, redis_get;
    rewrite H; cbn [fmap option_fmap option_map]; rewrite Hp;
    eexists; (split; [reflexivity|]); reflexivity.
Qed.

Lemma decided_data_status (d : action_t) (request : ApprovalRequest)
    (user_id now : string) (approval_data : gmap string json) :
  Spec.decided_data d request user_id now approval_data !! "status"
  = Some (JString (Spec.decided_status d)).
Proof. unfold Spec.decided_data. destruct d; now simplify_map_eq. Qed.

Lemma decided_not_pending (d : action_t) (request : ApprovalRequest)
    (user_id now : string) (approval_data : gmap string json) :
  ~ Spec.is_pending (Spec.decided_data d request user_id now approval_data).
Proof.
  unfold Spec.is_pending. rewrite decided_data_status. destruct d; discriminate.
Qed.

(** C2. A decision on a run without approval record fails with 404, one
    on a record whose status is not pending fails with 400, and both leave
    the keyspace as it was.  A decision on a pending record succeeds and
    stores the record with the decided status, who decided, when, and the
    reason; no other key changes.  After it every further decision on the
    run fails with 400 and changes nothing: a record leaves pending at most
    once. *)
Theorem approval_decided_at_most_once (d : action_t) (run_id : string)
    (request : ApprovalRequest) (user_id now : string) (redis : gmap string entry) :
  let key := "approval:" ++ run_id in
  let out := decide_run d run_id request user_id now redis in
  (redis !! key = None -> Spec.raised 404 out.1 /\ out.2 = redis) /\
  (forall e, redis !! key = Some e -> ~ Spec.is_pending (value e) ->
     Spec.raised 400 out.1 /\ out.2 = redis) /\
  (forall e, redis !! key = Some e -> Spec.is_pending (value e) ->
     (exists resp, out.1 = inr resp /\ status resp = Spec.decided_status d) /\
     (exists e', out.2 !! key = Some e' /\
        value e' !! "status" = Some (JString (Spec.decided_status d)) /\
        value e' !! Spec.decided_by_key d = Some (JString user_id) /\
        value e' !! Spec.decided_at_key d = Some (JString now) /\
        value e' !! "reason" = Some (json_of_option (reason request))) /\
     (forall k, k <> key -> out.2 !! k = redis !! k) /\
     (forall d' request' user_id' now',
        let out' := decide_run d' run_id request' user_id' now' out.2 in
        Spec.raised 400 out'.1 /\ out'.2 = out.2)).
Proof.
  intros key out. subst out key. split; [| split].
  - intros H. rewrite (decide_run_not_found _ _ _ _ _ _ H).
    split; [eexists|]; reflexivity.
  - intros e H Hp. rewrite (decide_run_not_pending _ _ _ _ _ _ _ H Hp).
    split; [eexists|]; reflexivity.
  - intros e H Hp.
    destruct (decide_run_pending d run_id request user_id now redis e H Hp)
      as (resp & -> & Hresp).
    cbn [fst snd]. split; [| split; [| split]].
    + now exists resp.
    + eexists. split; [apply lookup_insert_eq|]. cbn [value].
      unfold Spec.decided_data. destruct d; now simplify_map_eq.
    + intros k Hk. now apply lookup_insert_ne.
    + intros d' request' user_id' now'.
      erewrite decide_run_not_pending.
      * split; [eexists|]; reflexivity.
      * apply lookup_insert_eq.
      * apply decided_not_pending.
Qed.

(** C8. A decision on a pending record that has [t] seconds to live
    stores the decided record with [max t 3600] seconds to live: at least
    what remained and at least one hour.  Until an hour has passed the
    decided status can be read. *)
Theorem decision_keeps_record_one_hour (d : action_t) (run_id : string)
    (request : ApprovalRequest) (user_id now : string) (redis : gmap string entry)
    (e : entry) (t : Z) :
  redis !! ("approval:" ++ run_id) = Some e ->
  Spec.is_pending (value e) ->
  expire e = Some t ->
  let redis' := (decide_run d run_id request user_id now redis).2 in
  redis_ttl redis' ("approval:" ++ run_id) = Z.max t 3600 /\
  (t <= redis_ttl redis' ("approval:" ++ run_id))%Z /\
  (3600 <= redis_ttl redis' ("approval:" ++ run_id))%Z /\
  (forall dt, (0 <= dt < 3600)%Z ->
     check_approval_status (redis_elapse dt redis') run_id
     = Some (Spec.decided_status d)).
Proof.
  intros H Hp Ht redis'. subst redis'.
  destruct (decide_run_pending d run_id request user_id now redis e H Hp)
    as (resp & -> & _).
  cbn [snd].
  assert (redis_ttl redis ("approval:" ++ run_id) = t) as ->.
  { unfold redis_ttl. now rewrite H, Ht. }
  assert (redis_ttl
            (<["approval:" ++ run_id :=
                 {| value := Spec.decided_data d request user_id now (value e);
                    expire := Some (Z.max t 3600) |}]> redis)
            ("approval:" ++ run_id) = Z.max t 3600) as Httl.
  { unfold redis_ttl. now rewrite lookup_insert_eq. }
  rewrite Httl. split; [reflexivity|]. split; [lia|]. split; [lia|].
  intros dt Hdt.
  unfold check_approval_status, redis_get, redis_elapse.
  rewrite lookup_omap, lookup_insert_eq. cbn [mbind option_bind expire value].
  assert ((dt <? Z.max t 3600)%Z = true) as -> by (apply Z.ltb_lt; lia).
  cbn [fmap option_fmap option_map value].
  now rewrite decided_data_status.
Qed.

End ApprovalFacts.

(** ** Webhook delivery *)

Module WebhookFacts.
Import Webhooks.

Section Loop.
Variable self : WebhookNotifier.
Variable transport : nat -> outcome.

(** While every attempt fails, the loop runs through all attempts. *)
Lemma send_loop_all_fail (n a : nat) (trace : list event) :
  (forall j, (a <= j < a + n)%nat -> Spec.delivered (transport j) = false) ->
  send_loop self transport (List.map Z.of_nat (seq a n)) a trace
  = (inr false, (trace ++ flat_map (Spec.attempt_trace self) (seq a n))%list).
Proof.
  revert a trace. induction n as [|n IH]; intros a trace Hfail.
  - cbn. now rewrite app_nil_r.
  - cbn [seq List.map send_loop flat_map].
    pose proof (Hfail a ltac:(lia)) as Ha.
    assert ((match transport a with
             | Response status_code => (200 <=? status_code)%Z && (status_code <? 300)%Z
             | Raises TimeoutException | Raises RequestError | Raises OtherException => false
             end) = false) as ->.
    { destruct (transport a) as [sc | []]; auto. }
    rewrite IH by (intros; apply Hfail; lia).
    f_equal. unfold Spec.attempt_trace.
    destruct (Z.of_nat a <? max_retries self - 1)%Z;
      now rewrite <- !app_assoc.
Qed.

(** The loop stops at the first attempt that is delivered. *)
Lemma send_loop_first_success (n a k : nat) (trace : list event) :
  (k < n)%nat ->
  (forall j, (a <= j < a + k)%nat -> Spec.delivered (transport j) = false) ->
  Spec.delivered (transport (a + k)) = true ->
  send_loop self transport (List.map Z.of_nat (seq a n)) a trace
  = (inr true,
     (trace ++ flat_map (Spec.attempt_trace self) (seq a k) ++ [Post])%list).
Proof.
  revert n a trace. induction k as [|k IH]; intros n a trace Hk Hfail Hok.
  - destruct n as [|n]; [lia|].
    cbn [seq List.map send_loop flat_map]. rewrite Nat.add_0_r in Hok.
    assert ((match transport a with
             | Response status_code => (200 <=? status_code)%Z && (status_code <? 300)%Z
             | Raises TimeoutException | Raises RequestError | Raises OtherException => false
             end) = true) as ->.
    { destruct (transport a) as [sc | []]; auto. }
    reflexivity.
  - destruct n as [|n]; [lia|].
    cbn [seq List.map send_loop flat_map].
    pose proof (Hfail a ltac:(lia)) as Ha.
    assert ((match transport a with
             | Response status_code => (200 <=? status_code)%Z && (status_code <? 300)%Z
             | Raises TimeoutException | Raises RequestError | Raises OtherException => false
             end) = false) as ->.
    { destruct (transport a) as [sc | []]; auto. }
    rewrite (IH n (S a)).
    + f_equal. unfold Spec.attempt_trace.
      destruct (Z.of_nat a <? max_retries self - 1)%Z;
        now rewrite <- !app_assoc.
    + lia.
    + intros; apply Hfail; lia.
    + now replace (S a + k)%nat with (a + S k)%nat by lia.
Qed.

(** No exception leaves the loop. *)
Lemma send_loop_returns (attempts : list Z) (calls : nat) (trace : list event) :
  exists b, (send_loop self transport attempts calls trace).1 = inr b.
Proof.
  revert calls trace. induction attempts as [|attempt rest IH]; intros calls trace.
  - now exists false.
  - cbn [send_loop].
    destruct (match transport calls with Response _ => _ | Raises _ => _ end).
    + now exists true.
    + apply IH.
Qed.

(** Every attempt before the last is followed by its wait. *)
Lemma attempt_trace_before_last_from (k a : nat) :
  (Z.of_nat (a + k) <= max_retries self - 1)%Z ->
  flat_map (Spec.attempt_trace self) (seq a k)
  = flat_map (fun j => [Post; Sleep (backoff_base self ^ Z.of_nat j)%Z]) (seq a k).
Proof.
  revert a. induction k as [|k IH]; intros a Hk; [reflexivity|].
  cbn [seq flat_map]. rewrite IH by lia. f_equal.
  unfold Spec.attempt_trace.
  assert ((Z.of_nat a <? max_retries self - 1)%Z = true) as -> by (apply Z.ltb_lt; lia).
  reflexivity.
Qed.

Lemma attempt_trace_before_last (k : nat) :
  (Z.of_nat k <= max_retries self - 1)%Z ->
  flat_map (Spec.attempt_trace self) (seq 0 k)
  = flat_map (fun j => [Post; Sleep (backoff_base self ^ Z.of_nat j)%Z]) (seq 0 k).
Proof. intros Hk. now apply attempt_trace_before_last_from. Qed.

End Loop.

Lemma attempts_made_app (t1 t2 : list event) :
  attempts_made (t1 ++ t2) = (attempts_made t1 + attempts_made t2)%nat.
Proof. unfold attempts_made. now rewrite List.filter_app, length_app. Qed.

Lemma delays_app (t1 t2 : list event) : delays (t1 ++ t2) = (delays t1 ++ delays t2)%list.
Proof. unfold delays. apply flat_map_app. Qed.

Lemma attempts_made_waits (base : Z) (k a : nat) :
  attempts_made (flat_map (fun j => [Post; Sleep (base ^ Z.of_nat j)%Z]) (seq a k)) = k.
Proof.
  revert a. induction k as [|k IH]; intros a; [reflexivity|].
  cbn [seq flat_map]. rewrite attempts_made_app, IH. reflexivity.
Qed.

Lemma delays_waits (base : Z) (k a : nat) :
  delays (flat_map (fun j => [Post; Sleep (base ^ Z.of_nat j)%Z]) (seq a k))
  = List.map (fun j => (base ^ Z.of_nat j)%Z) (seq a k).
Proof.
  revert a. induction k as [|k IH]; intros a; [reflexivity|].
  cbn [seq flat_map List.map]. rewrite delays_app, IH. reflexivity.
Qed.

(** A delivery trace of [k] failures has [k + 1] attempts and the waits
    [base ^ 0, ..., base ^ (k - 1)]. *)
Lemma delivery_trace_counts (base : Z) (k : nat) :
  attempts_made (Spec.delivery_trace base k) = S k /\
  delays (Spec.delivery_trace base k) = List.map (fun j => (base ^ Z.of_nat j)%Z) (seq 0 k).
Proof.
  unfold Spec.delivery_trace.
  rewrite attempts_made_app, delays_app, attempts_made_waits, delays_waits.
  split; [cbn; lia | apply app_nil_r].
Qed.

(** The send when every attempt fails: all attempts are made, each but
    the last followed by its wait. *)
Lemma _send_webhook_exhausted (self : WebhookNotifier) (transport : nat -> outcome) :
  (forall j, (j < Z.to_nat (max_retries self))%nat ->
             Spec.delivered (transport j) = false) ->
  _send_webhook self transport =
    (inr false,
     match Z.to_nat (max_retries self) with
     | O => []
     | S m => Spec.delivery_trace (backoff_base self) m
     end).
Proof.
  intros Hfail. unfold _send_webhook, range.
  rewrite send_loop_all_fail by (intros; apply Hfail; lia).
  f_equal. cbn [app].
  destruct (Z.to_nat (max_retries self)) as [|m] eqn:En; [reflexivity|].
  rewrite seq_S, flat_map_app, attempt_trace_before_last by lia.
  unfold Spec.delivery_trace. f_equal.
  cbn [flat_map Nat.add]. rewrite app_nil_r. unfold Spec.attempt_trace.
  assert ((Z.of_nat m <? max_retries self - 1)%Z = false) as -> by (apply Z.ltb_ge; lia).
  reflexivity.
Qed.

(** The send when attempt [k] is the first to be delivered. *)
Lemma _send_webhook_delivered (self : WebhookNotifier) (transport : nat -> outcome)
    (k : nat) :
  (k < Z.to_nat (max_retries self))%nat ->
  (forall j, (j < k)%nat -> Spec.delivered (transport j) = false) ->
  Spec.delivered (transport k) = true ->
  _send_webhook self transport = (inr true, Spec.delivery_trace (backoff_base self) k).
Proof.
  intros Hk Hfail Hok. unfold _send_webhook, range.
  rewrite (send_loop_first_success self transport _ 0 k) by (auto; intros; apply Hfail; lia).
  cbn [app]. rewrite attempt_trace_before_last by lia. reflexivity.
Qed.

(** C5. [_send_webhook] never raises.  It makes at most [max_retries]
    attempts; an attempt is delivered exactly when it returns a 2xx status,
    and a timeout, a transport error, any other exception or another status
    is a failed attempt.  If attempt [k] is the first delivered one, the
    result is true after [k + 1] attempts; if none of the [max_retries]
    attempts is delivered, the result is false after [max_retries] attempts.
    After failed attempt number [j] (from 0) it waits
    [backoff_base ^ j] seconds, except after the last attempt; with the
    default base 2 these waits are 1, 2, 4.  Responses 500, 500, 200 with
    [max_retries >= 3] give true after 3 attempts; only 500 responses with
    [max_retries = 2] give false after 2 attempts. *)
Theorem send_webhook_retries (self : WebhookNotifier) (transport : nat -> outcome) :
  let n := Z.to_nat (max_retries self) in
  let base := backoff_base self in
  let out := _send_webhook self transport in
  (exists b, out.1 = inr b) /\
  (forall k, (k < n)%nat ->
     (forall j, (j < k)%nat -> Spec.delivered (transport j) = false) ->
     Spec.delivered (transport k) = true ->
     out = (inr true, Spec.delivery_trace base k) /\
     attempts_made out.2 = S k /\
     delays out.2 = List.map (fun j => (base ^ Z.of_nat j)%Z) (seq 0 k)) /\
  ((forall j, (j < n)%nat -> Spec.delivered (transport j) = false) ->
     out.1 = inr false /\
     attempts_made out.2 = n /\
     delays out.2 = List.map (fun j => (base ^ Z.of_nat j)%Z) (seq 0 (n - 1)) /\
     ((0 < n)%nat -> out.2 = Spec.delivery_trace base (n - 1))) /\
  ((3 <= max_retries self)%Z ->
     transport 0%nat = Response 500 -> transport 1%nat = Response 500 ->
     transport 2%nat = Response 200 ->
     out.1 = inr true /\ attempts_made out.2 = 3%nat /\
     delays out.2 = [base ^ 0; base ^ 1]%Z) /\
  (max_retries self = 2%Z -> (forall j, transport j = Response 500) ->
     out.1 = inr false /\ attempts_made out.2 = 2%nat /\ delays out.2 = [base ^ 0]%Z) /\
  List.map (fun j => (backoff_base create_webhook_notifier_default ^ Z.of_nat j)%Z) (seq 0 3)
  = [1; 2; 4]%Z.
Proof.
  intros n base out. subst n base out.
  split; [apply send_loop_returns|].
  split.
  { intros k Hk Hfail Hok.
    rewrite (_send_webhook_delivered self transport k Hk Hfail Hok). cbn [fst snd].
    split; [reflexivity|]. apply delivery_trace_counts. }
  split.
  { intros Hfail. rewrite (_send_webhook_exhausted self transport Hfail). cbn [fst snd].
    split; [reflexivity|].
    destruct (Z.to_nat (max_retries self)) as [|m]; [repeat split; lia|].
    replace (S m - 1)%nat with m by lia.
    destruct (delivery_trace_counts (backoff_base self) m) as [H1 H2].
    repeat split; assumption. }
  split.
  { intros Hn H0 H1 H2.
    rewrite (_send_webhook_delivered self transport 2).
    - cbn [fst snd]. split; [reflexivity|].
      destruct (delivery_trace_counts (backoff_base self) 2) as [E1 E2].
      rewrite E1, E2. split; reflexivity.
    - lia.
    - intros j Hj. destruct j as [|[|j]]; [now rewrite H0 | now rewrite H1 | lia].
    - now rewrite H2. }
  split; [| reflexivity].
  intros Hn Hall.
  rewrite (_send_webhook_exhausted self transport) by (intros; now rewrite Hall).
  rewrite Hn. cbn [fst snd]. change (Z.to_nat 2) with 2%nat. cbn iota.
  destruct (delivery_trace_counts (backoff_base self) 1) as [E1 E2].
  rewrite E1, E2. repeat split; reflexivity.
Qed.

End WebhookFacts.

(** ** The properties at concrete inputs *)

Module Witnesses.
Import Models Autonomy PolicyGuard.

(** A user holding only [local.read] asks to create a Notion page: the
    request is denied for the missing [notion.write]. *)
Lemma validate_request_denied_witness :
  validate_request_with (fun l => l) assess_risk_score default_guard
    {| actor := "limited_user";
       goal := "Create a new Notion page with project updates";
       context := ∅;
       dry_run := false |}
    {| user_id := "limited_user"; scopes := ["local.read"] |}
  = Some {| Result.allowed := false;
            Result.autonomy_level := L0_Ask;
            Result.risk_score := 1.0%Q;
            Result.requires_approval := true;
            Result.required_scopes := ["notion.write"];
            Result.missing_scopes := ["notion.write"];
            Result.reason := Some "Missing required scopes: notion.write" |}.
Proof.
  refine (proj1 (GuardFacts.validate_request_denied (fun l => l) assess_risk_score
                   default_guard _ _ _)).
  exists "notion.write". split.
  - vm_compute. left. reflexivity.
  - intros H. apply ScopeFacts._scope_matches_any_satisfied in H.
    vm_compute in H. discriminate.
Defined.

(** A pending approval created with ten minutes to live is approved:
    the decided record then has an hour to live. *)
Lemma decision_keeps_record_one_hour_witness :
  Approvals.redis_ttl
    (Approvals.decide_run Approvals.approve "run-1"
       {| Approvals.action := Approvals.approve; Approvals.reason := Some "ok" |}
       "bob" "2025-01-01T00:05:00+00:00"
       (Approvals.create_pending_approval ∅ "run-1" "alice" "Create a page" "L1_Draft"
          0.7%Q ["notion.write"] 600
          "2025-01-01T00:00:00+00:00" "2025-01-01T00:10:00+00:00")).2
    "approval:run-1"
  = 3600%Z.
Proof.
  refine (proj1 (ApprovalFacts.decision_keeps_record_one_hour Approvals.approve "run-1"
                   _ "bob" _ _ _ 600 _ _ _)).
  - apply lookup_insert_eq.
  - reflexivity.
  - reflexivity.
Defined.

End Witnesses.

(** ** The expectations of tests/test_policy.py and tests/test_queue.py *)

Module Tests.
Import Models Autonomy PolicyGuard Fixtures.

Example test_check_scope_permissions :
  check_scope_permissions ["notion.read"] ["notion.read"] = true /\
  check_scope_permissions ["notion.read"; "notion.write"] ["notion.*"] = true /\
  check_scope_permissions ["notion.write"; "github.write"; "admin.delete"] ["*"] = true /\
  check_scope_permissions ["github.write"] ["github.read"] = false.
Proof. repeat split; reflexivity. Qed.

Example test_calculate_tool_risk :
  calculate_tool_risk "adapters_github.search_issues" ["read"] = 0.1%Q /\
  calculate_tool_risk "adapters_notion.create_page" ["write"] = 0.3%Q /\
  calculate_tool_risk "adapters_github.delete_issue" ["delete"] = 0.7%Q /\
  calculate_tool_risk "admin.reset_database" ["admin"] = 0.9%Q /\
  calculate_tool_risk "local.summarize_text" [] = 0.05%Q.
Proof. repeat split; reflexivity. Qed.

Example test_calculate_scope_risk :
  (calculate_scope_risk ["local.read"] == 0.05)%Q /\
  (calculate_scope_risk ["notion.read"; "github.read"] == 0.5)%Q /\
  (calculate_scope_risk ["notion.write"] == 0.4)%Q /\
  (calculate_scope_risk ["admin.*"] == 0.8)%Q /\
  (calculate_scope_risk ["*"] == 0.8)%Q.
Proof. repeat split; vm_compute; reflexivity. Qed.

Example test_user_trust_level :
  get_user_trust_level admin_user = 1.0%Q /\
  get_user_trust_level {| user_id := "user"; scopes := ["notion.*"; "github.*"; "google.*"] |}
  = 0.8%Q /\
  get_user_trust_level {| user_id := "user"; scopes := ["notion.read"; "github.read"; "local.*"] |}
  = 0.5%Q /\
  get_user_trust_level limited_user = 0.3%Q /\
  get_user_trust_level {| user_id := "user"; scopes := [] |} = 0.0%Q.
Proof. repeat split; reflexivity. Qed.

Example test_autonomy_levels :
  determine_autonomy_level default_guard (request "admin" "Read data" false) admin_user 0.2
  = L3_ExecuteSilent /\
  determine_autonomy_level default_guard (request "user123" "Write data" false)
    standard_user 0.5 = L2_ExecuteNotify /\
  determine_autonomy_level default_guard (request "user123" "Sensitive operation" false)
    standard_user 0.7 = L1_Draft /\
  determine_autonomy_level default_guard (request "limited_user" "Destructive operation" false)
    limited_user 0.9 = L0_Ask /\
  determine_autonomy_level default_guard (request "admin" "Write operation" false)
    admin_user 0.5 = L3_ExecuteSilent.
Proof. repeat split; reflexivity. Qed.

Example test_policy_guard_allows_valid_actor :
  match validate_request (fun l => l) default_guard
          (request "admin" "Read some data from Notion" false) admin_user with
  | Some r => Result.allowed r = true /\ Result.missing_scopes r = [] /\
              Result.autonomy_level r = L3_ExecuteSilent
  | None => False
  end.
Proof. vm_compute. auto. Qed.

Example test_policy_guard_dry_run_gets_l2 :
  match validate_request (fun l => l) default_guard
          (request "user123" "Delete all Notion pages" true) standard_user with
  | Some r => Result.allowed r = true /\ Result.autonomy_level r = L2_ExecuteNotify /\
              Result.requires_approval r = false
  | None => False
  end.
Proof. vm_compute. auto. Qed.

Example test_full_validation_flow_denied :
  match validate_request (fun l => l) default_guard
          (request "limited_user" "Delete GitHub repository and all issues" false)
          limited_user with
  | Some r => Result.allowed r = false /\ Result.missing_scopes r = ["github.write"]
  | None => False
  end.
Proof. vm_compute. auto. Qed.

Example test_webhook_notifier_retry_on_failure :
  Webhooks._send_webhook
    {| Webhooks.timeout_seconds := 5; Webhooks.max_retries := 3; Webhooks.backoff_base := 1 |}
    (responses [500; 500; 200]%Z)
  = (inr true, [Webhooks.Post; Webhooks.Sleep 1; Webhooks.Post; Webhooks.Sleep 1;
                Webhooks.Post]).
Proof. reflexivity. Qed.

Example test_webhook_notifier_max_retries_exceeded :
  Webhooks._send_webhook
    {| Webhooks.timeout_seconds := 5; Webhooks.max_retries := 2; Webhooks.backoff_base := 1 |}
    (responses [])
  = (inr false, [Webhooks.Post; Webhooks.Sleep 1; Webhooks.Post]).
Proof. reflexivity. Qed.

(** With the default notifier the waits between three failed attempts
    are 1 and 2 seconds. *)
Example default_notifier_waits :
  Webhooks.delays (Webhooks._send_webhook Webhooks.create_webhook_notifier_default
                     (fun _ => Webhooks.Raises Webhooks.TimeoutException)).2
  = [1; 2]%Z.
Proof. reflexivity. Qed.

(** Approve, then try to reject: the second decision is refused and the
    record stays approved. *)
Example approve_then_reject :
  let redis0 :=
    Approvals.create_pending_approval ∅ "run-1" "alice" "Create a page" "L1_Draft"
      0.7%Q ["notion.write"] 3600 "2025-01-01T00:00:00+00:00" "2025-01-01T01:00:00+00:00" in
  let request := {| Approvals.action := Approvals.approve; Approvals.reason := None |} in
  let out1 := Approvals.approve_run "run-1" request "bob" "2025-01-01T00:05:00+00:00" redis0 in
  let out2 := Approvals.reject_run "run-1" request "carol" "2025-01-01T00:06:00+00:00" out1.2 in
  Approvals.check_approval_status redis0 "run-1" = Some "pending" /\
  Approvals.check_approval_status out1.2 "run-1" = Some "approved" /\
  Approvals.status_code <$> (match out2.1 with inl e => Some e | inr _ => None end) = Some 400%Z /\
  Approvals.check_approval_status out2.2 "run-1" = Some "approved" /\
  Approvals.status_code <$>
    (match (Approvals.approve_run "run-2" request "bob" "now" redis0).1 with
     | inl e => Some e | inr _ => None end) = Some 404%Z.
Proof. vm_compute. repeat split; reflexivity. Qed.

End Tests.

(** * Further properties of the code *)

(** ** autonomy.py: tool risk, trust level, level helpers *)

Module AutonomyMore.
Import Models Autonomy PolicyGuard.

Lemma tool_risk_range (name : string) (capabilities : list string) :
  (0.05 <= calculate_tool_risk name capabilities <= 0.9)%Q.
Proof.
  unfold calculate_tool_risk.
  repeat match goal with |- context [if ?b then _ else _] => destruct b end;
    split; vm_compute; discriminate.
Qed.

(** X1. Capabilities only raise the risk of a tool: the risk with any
    capability list is at least the risk computed from the name alone, it
    always lies between 0.05 and 0.9, and with the [admin] capability it is
    0.9 whatever the name. *)
Theorem calculate_tool_risk_capabilities (name : string) (capabilities : list string) :
  (calculate_tool_risk name [] <= calculate_tool_risk name capabilities)%Q /\
  (0.05 <= calculate_tool_risk name capabilities <= 0.9)%Q /\
  (In "admin" capabilities -> (calculate_tool_risk name capabilities == 0.9)%Q).
Proof.
  split; [| split; [apply tool_risk_range|]].
  - unfold calculate_tool_risk. cbn [Py.mem existsb].
    repeat match goal with |- context [if ?b then _ else _] => destruct b end;
      vm_compute; discriminate.
  - intros H. apply PyFacts.mem_In in H. unfold calculate_tool_risk. rewrite H.
    repeat match goal with |- context [if ?b then _ else _] => destruct b end;
      vm_compute; reflexivity.
Qed.

Lemma trust_range (user : User) : (0 <= get_user_trust_level user <= 1)%Q.
Proof.
  unfold get_user_trust_level.
  repeat match goal with |- context [if ?b then _ else _] => destruct b end;
    split; vm_compute; discriminate.
Qed.

(** X2. The trust level of a user lies in [0, 1]; it is 1 exactly for
    the holders of the global scope [*] and 0 exactly for users without any
    scope. *)
Theorem get_user_trust_level_extremes (user : User) :
  (0 <= get_user_trust_level user <= 1)%Q /\
  ((get_user_trust_level user == 1)%Q <-> In "*" (scopes user)) /\
  ((get_user_trust_level user == 0)%Q <-> scopes user = []).
Proof.
  split; [apply trust_range|].
  unfold get_user_trust_level. rewrite <- PyFacts.mem_In.
  destruct (Py.mem "*" (scopes user)) eqn:Em.
  - split; [split; reflexivity || auto|].
    split; [intros H; vm_compute in H; discriminate|].
    intros E. rewrite E in Em. discriminate.
  - destruct (scopes user) as [|s l] eqn:Es.
    + cbn. split; split; try reflexivity; try discriminate;
        intros H; vm_compute in H; discriminate.
    + split.
      * split; [| discriminate].
        repeat match goal with |- context [if ?b then _ else _] => destruct b end;
          intros H; vm_compute in H; discriminate.
      * split; [| discriminate].
        cbn [length]. cbn [Nat.leb].
        repeat match goal with |- context [if ?b then _ else _] => destruct b end;
          intros H; vm_compute in H; discriminate.
Qed.

(** X3. The helper predicates on levels are consistent: a level is
    autonomous exactly when the user is not notified; step approval implies
    plan approval, plan approval implies notification; a level that needs
    approval is never autonomous; a dry run is allowed at every level. *)
Theorem autonomy_helpers_consistent (level : AutonomyLevel) :
  is_autonomous level = negb (should_notify_user level) /\
  (requires_step_approval level = true -> requires_plan_approval level = true) /\
  (requires_plan_approval level = true -> should_notify_user level = true) /\
  (forall r, requires_approval level r = true -> is_autonomous level = false) /\
  is_dry_run_allowed level = true.
Proof. destruct level; repeat split; intros; try reflexivity; discriminate. Qed.

(** X4. For any thresholds, a higher risk score never gives a higher
    autonomy level to the same request and user. *)
Theorem determine_autonomy_level_antitone (self : PolicyGuard.PolicyGuard)
    (request : ActRequest) (user : User) (r r' : Q) :
  (r <= r')%Q ->
  (Spec.level_rank (determine_autonomy_level self request user r') <=
   Spec.level_rank (determine_autonomy_level self request user r))%nat.
Proof.
  intros Hr. unfold determine_autonomy_level.
  destruct (Py.mem "*" (scopes user)), (dry_run request);
    destruct (PyFacts.ltb_spec r (risk_threshold_l1 self)),
             (PyFacts.ltb_spec r' (risk_threshold_l1 self)),
             (PyFacts.ltb_spec r (risk_threshold_l2 self)),
             (PyFacts.ltb_spec r' (risk_threshold_l2 self)),
             (PyFacts.ltb_spec r (risk_threshold_l3 self)),
             (PyFacts.ltb_spec r' (risk_threshold_l3 self));
    cbn; try lia; exfalso; lra.
Qed.

(** X5. A dry run never needs approval: for any thresholds, user and
    risk score the level of a dry-run request is [L2_ExecuteNotify] or
    [L3_ExecuteSilent]. *)
Theorem dry_run_never_needs_approval (self : PolicyGuard.PolicyGuard)
    (request : ActRequest) (user : User) (r : Q) :
  dry_run request = true ->
  (determine_autonomy_level self request user r = L2_ExecuteNotify \/
   determine_autonomy_level self request user r = L3_ExecuteSilent) /\
  requires_approval (determine_autonomy_level self request user r) r = false.
Proof.
  intros H. unfold determine_autonomy_level. rewrite H.
  destruct (Py.mem "*" (scopes user) && Py.ltb r (risk_threshold_l1 self)); auto.
Qed.

End AutonomyMore.

(** ** policy_guard.py: risk assessment *)

Module RiskMore.
Import Models Autonomy PolicyGuard.

Lemma min_mono (a b c : Q) : (a <= b)%Q -> (Py.min a c <= Py.min b c)%Q.
Proof.
  intros H. unfold Py.min.
  destruct (PyFacts.ltb_spec c a), (PyFacts.ltb_spec c b); lra.
Qed.

Lemma max_mono (a b c : Q) : (a <= b)%Q -> (Py.max a c <= Py.max b c)%Q.
Proof.
  intros H. unfold Py.max.
  destruct (PyFacts.ltb_spec a c), (PyFacts.ltb_spec b c); lra.
Qed.

Lemma min_ge (a c m : Q) : (m <= a)%Q -> (m <= c)%Q -> (m <= Py.min a c)%Q.
Proof. intros Ha Hc. unfold Py.min. destruct (PyFacts.ltb_spec c a); lra. Qed.

Lemma max_ge_l (a c : Q) : (a <= Py.max a c)%Q.
Proof. unfold Py.max. destruct (PyFacts.ltb_spec a c); lra. Qed.

Lemma Qsum_ge {A : Type} (f : A -> Q) (m : Q) (l : list A) :
  (0 <= m)%Q -> (forall x, m <= f x)%Q ->
  (0 <= Spec.Qsum (List.map f l))%Q /\ (l <> [] -> m <= Spec.Qsum (List.map f l))%Q.
Proof.
  intros Hm Hf. unfold Spec.Qsum.
  induction l as [|x l [IH _]]; cbn [List.map fold_right].
  - split; [lra | congruence].
  - pose proof (Hf x). split; [lra | intros _; lra].
Qed.

Lemma _scope_increment_nonneg (scope : string) : (0 <= _scope_increment scope)%Q.
Proof.
  unfold _scope_increment.
  repeat match goal with |- context [if ?b then _ else _] => destruct b end;
    vm_compute; discriminate.
Qed.

Lemma _calculate_scope_risk_nonneg (scopes : list string) :
  (0 <= _calculate_scope_risk scopes)%Q.
Proof.
  unfold _calculate_scope_risk. apply min_ge; [| vm_compute; discriminate].
  rewrite RiskFacts.loop_Qsum.
  destruct (Qsum_ge _scope_increment 0 scopes) as [H _];
    [lra | apply _scope_increment_nonneg | exact H].
Qed.

(** The risk before the trust modifier: tool risks plus scope risk. *)
Lemma base_risk_bounds (plan : ExecutionPlan) :
  let base :=
    (fold_left (fun risk tool => risk + calculate_tool_risk tool [])
               (tools_used plan) 0.0
     + _calculate_scope_risk (required_scopes plan))%Q in
  (0 <= base)%Q /\ (tools_used plan <> [] -> 0.05 <= base)%Q.
Proof.
  intros base. subst base.
  rewrite (RiskFacts.loop_Qsum (fun tool => calculate_tool_risk tool [])).
  pose proof (_calculate_scope_risk_nonneg (required_scopes plan)) as Hs.
  destruct (Qsum_ge (fun tool => calculate_tool_risk tool []) 0.05 (tools_used plan))
    as [H0 H1]; [vm_compute; discriminate | intros x; apply AutonomyMore.tool_risk_range |].
  split; [lra | intros Hne; specialize (H1 Hne); lra].
Qed.

(** X6. Trust never raises risk: for the same plan, a user with at least
    the trust level of another is assessed at most the other's risk score. *)
Theorem assess_risk_score_trust (plan : ExecutionPlan) (user user' : User) :
  (get_user_trust_level user' <= get_user_trust_level user)%Q ->
  (assess_risk_score plan user <= assess_risk_score plan user')%Q.
Proof.
  intros Ht. unfold assess_risk_score.
  destruct (base_risk_bounds plan) as [Hb _]. cbv zeta in Hb.
  set (base := (fold_left _ _ _ + _)%Q) in *.
  apply max_mono, min_mono.
  assert (base * (1 - get_user_trust_level user * 0.2)
          <= base * (1 - get_user_trust_level user' * 0.2))%Q as Hm by nra.
  destruct (1 <? length (steps plan))%nat; lra.
Qed.

(** A plan that uses a tool is never assessed below 0.04. *)
Lemma assess_risk_score_floor (plan : ExecutionPlan) (user : User) :
  tools_used plan <> [] -> (0.04 <= assess_risk_score plan user)%Q.
Proof.
  intros Hne. unfold assess_risk_score.
  destruct (base_risk_bounds plan) as [_ Hb]. cbv zeta in Hb. specialize (Hb Hne).
  set (base := (fold_left _ _ _ + _)%Q) in *.
  pose proof (AutonomyMore.trust_range user) as [Ht0 Ht1].
  eapply Qle_trans; [| apply max_ge_l].
  apply min_ge; [| vm_compute; discriminate].
  assert (0 <= (base - 0.05) * (1 - get_user_trust_level user))%Q as Hp
    by (apply Qmult_le_0_compat; lra).
  assert (0.04 <= base * (1 - get_user_trust_level user * 0.2))%Q as Hm.
  { assert (base * (1 - get_user_trust_level user * 0.2)
            == 0.8 * base + 0.2 * ((base - 0.05) * (1 - get_user_trust_level user))
               + 0.01 * (1 - get_user_trust_level user))%Q as -> by ring.
    set (p := ((base - 0.05) * (1 - get_user_trust_level user))%Q) in *.
    clearbody p base. lra. }
  destruct (1 <? length (steps plan))%nat eqn:El; [| exact Hm].
  apply Nat.ltb_lt in El.
  assert (inject_Z 2 <= inject_Z (Z.of_nat (length (steps plan))))%Q as Hl
    by (rewrite <- Zle_Qle; lia).
  assert (0 <= Py.min ((inject_Z (Z.of_nat (length (steps plan))) - 1) * 0.1) 0.3)%Q.
  { apply min_ge; [| vm_compute; discriminate].
    change (inject_Z 2) with 2%Q in Hl. lra. }
  lra.
Qed.

End RiskMore.

(** ** policy_guard.py: scope extraction, planning, validation *)

Module GuardMore.
Import Models Autonomy PolicyGuard.

Lemma _extract_required_scopes_for (list_of_set : list string -> list string)
    (request : ActRequest) :
  let g := Py.lower (goal request) in
  _extract_required_scopes list_of_set request =
  list_of_set
    (Spec.required_for
       (Py.contains "notion" g) (Py.any_in ["create"; "update"; "write"; "add"] g)
       (Py.contains "github" g || Py.contains "git" g)
       (Py.any_in ["create"; "update"; "push"; "commit"; "issue"] g)
       (Py.contains "google" g || Py.contains "gmail" g || Py.contains "drive" g)
       (Py.any_in ["send"; "create"; "update"; "write"] g)
       (Py.contains "summarize" g || Py.contains "analyze" g)).
Proof.
  intros g. unfold _extract_required_scopes. fold g. f_equal.
  destruct (Py.contains "notion" g), (Py.any_in ["create"; "update"; "write"; "add"] g),
    (Py.contains "github" g || Py.contains "git" g),
    (Py.any_in ["create"; "update"; "push"; "commit"; "issue"] g),
    (Py.contains "google" g || Py.contains "gmail" g || Py.contains "drive" g),
    (Py.any_in ["send"; "create"; "update"; "write"] g),
    (Py.contains "summarize" g || Py.contains "analyze" g); reflexivity.
Qed.

Lemma _create_execution_plan_for (list_of_set : list string -> list string)
    (request : ActRequest) :
  let g := Py.lower (goal request) in
  let tools :=
    Spec.tools_for (Py.contains "github" g) (Py.contains "notion" g)
      (Py.contains "summarize" g) (Py.contains "google" g || Py.contains "gmail" g) in
  _create_execution_plan list_of_set request =
  {| steps := List.map (fun tool => {| tool := tool; input := ∅ |}) tools;
     tools_used := tools;
     required_scopes := _extract_required_scopes list_of_set request |}.
Proof.
  intros g tools. subst tools. unfold _create_execution_plan. fold g.
  destruct (Py.contains "github" g), (Py.contains "notion" g),
    (Py.contains "summarize" g), (Py.contains "google" g || Py.contains "gmail" g);
    reflexivity.
Qed.

Lemma required_for_shape (n nw g gw o ow s : bool) :
  let required := Spec.required_for n nw g gw o ow s in
  required <> [] /\ List.NoDup required /\ (length required <= 4)%nat /\
  (forall x, In x required -> In x Spec.known_scopes) /\
  ~ (In "notion.read" required /\ In "notion.write" required) /\
  ~ (In "github.read" required /\ In "github.write" required) /\
  ~ (In "google.read" required /\ In "google.write" required) /\
  (In "local.read" required -> required = ["local.read"]).
Proof.
  destruct n, nw, g, gw, o, ow, s; cbn;
    (split; [discriminate|]);
    (split; [repeat (constructor; [cbn; intros H; intuition discriminate|]);
             constructor|]);
    (split; [lia|]);
    (split; [intros x Hx; intuition (subst; auto 10)|]);
    repeat split; try (intros H; intuition discriminate).
Qed.

Lemma set_listing_nodup : Spec.set_listing (nodup string_dec).
Proof. intros l. split; [apply List.NoDup_nodup | intros x; apply List.nodup_In]. Qed.

Lemma set_listing_Permutation (list_of_set : list string -> list string) (l : list string) :
  Spec.set_listing list_of_set -> List.NoDup l -> Permutation (list_of_set l) l.
Proof.
  intros H Hl. destruct (H l) as [Hn Hin].
  apply Permutation.NoDup_Permutation; assumption.
Qed.

Lemma required_for_member (n nw g gw o ow s : bool) :
  let required := Spec.required_for n nw g gw o ow s in
  (n = true -> In (if nw then "notion.write" else "notion.read") required) /\
  (g = true -> In (if gw then "github.write" else "github.read") required) /\
  (o = true -> In (if ow then "google.write" else "google.read") required) /\
  (s = true -> In "local.summarize" required).
Proof.
  destruct n, nw, g, gw, o, ow, s; cbn; repeat split; intros; auto 10; discriminate.
Qed.

Lemma tools_for_member (g n s o : bool) :
  let tools := Spec.tools_for g n s o in
  tools <> [] /\ (1 <= length tools <= 4)%nat /\
  (In "adapters_github.search_issues" tools -> g = true) /\
  (In "adapters_notion.create_page" tools -> n = true) /\
  (In "local.summarize_text" tools -> s = true) /\
  (In "adapters_google.send_email" tools -> o = true) /\
  (In "local.process" tools -> tools = ["local.process"]).
Proof.
  destruct g, n, s, o; cbn; repeat split; try lia; try discriminate;
    intros H; intuition discriminate.
Qed.

(** X7. The required scopes extracted from a request are never empty
    and hold at most four scopes, each once and each one of the eight scopes
    the guard knows; a service is never required for both reading and
    writing; [local.read] is required only alone, as the default. *)
Theorem _extract_required_scopes_shape (list_of_set : list string -> list string)
    (request : ActRequest) :
  Spec.set_listing list_of_set ->
  let required := _extract_required_scopes list_of_set request in
  required <> [] /\ List.NoDup required /\ (length required <= 4)%nat /\
  (forall x, In x required -> In x Spec.known_scopes) /\
  ~ (In "notion.read" required /\ In "notion.write" required) /\
  ~ (In "github.read" required /\ In "github.write" required) /\
  ~ (In "google.read" required /\ In "google.write" required) /\
  (In "local.read" required -> required = ["local.read"]).
Proof.
  intros Hset required. subst required. rewrite _extract_required_scopes_for. cbv zeta.
  match goal with |- context [list_of_set ?l] => set (required := l) end.
  destruct (required_for_shape
              (Py.contains "notion" (Py.lower (goal request)))
              (Py.any_in ["create"; "update"; "write"; "add"] (Py.lower (goal request)))
              (Py.contains "github" (Py.lower (goal request))
               || Py.contains "git" (Py.lower (goal request)))
              (Py.any_in ["create"; "update"; "push"; "commit"; "issue"]
                 (Py.lower (goal request)))
              (Py.contains "google" (Py.lower (goal request))
               || Py.contains "gmail" (Py.lower (goal request))
               || Py.contains "drive" (Py.lower (goal request)))
              (Py.any_in ["send"; "create"; "update"; "write"] (Py.lower (goal request)))
              (Py.contains "summarize" (Py.lower (goal request))
               || Py.contains "analyze" (Py.lower (goal request))))
    as (Hne & Hnd & Hlen & Hknown & Hn & Hg & Ho & Hl).
  cbv zeta in *. fold required in Hne, Hnd, Hlen, Hknown, Hn, Hg, Ho, Hl.
  pose proof (set_listing_Permutation list_of_set required Hset Hnd) as Hperm.
  destruct (Hset required) as [Hnd' Hin].
  split.
  { intros E. rewrite E in Hperm. apply Permutation_nil in Hperm. auto. }
  split; [assumption|].
  split; [rewrite (Permutation_length Hperm); assumption|].
  split; [intros x Hx; apply Hknown, Hin, Hx|].
  rewrite !Hin. repeat split; try assumption.
  intros H. rewrite (Hl H) in Hperm |- *.
  apply Permutation_sym, Permutation_length_1_inv in Hperm. exact Hperm.
Qed.

(** X8. The execution plan has one step per tool, between one and four
    tools, and the required scopes of the request; every adapter tool it
    plans has a scope of its service among the required scopes, and
    [local.process] is planned only alone. *)
Theorem _create_execution_plan_covered (list_of_set : list string -> list string)
    (request : ActRequest) :
  Spec.set_listing list_of_set ->
  let plan := _create_execution_plan list_of_set request in
  steps plan = List.map (fun tool => {| tool := tool; input := ∅ |}) (tools_used plan) /\
  (1 <= length (tools_used plan) <= 4)%nat /\
  required_scopes plan = _extract_required_scopes list_of_set request /\
  (In "adapters_github.search_issues" (tools_used plan) ->
   In "github.read" (required_scopes plan) \/ In "github.write" (required_scopes plan)) /\
  (In "adapters_notion.create_page" (tools_used plan) ->
   In "notion.read" (required_scopes plan) \/ In "notion.write" (required_scopes plan)) /\
  (In "adapters_google.send_email" (tools_used plan) ->
   In "google.read" (required_scopes plan) \/ In "google.write" (required_scopes plan)) /\
  (In "local.summarize_text" (tools_used plan) ->
   In "local.summarize" (required_scopes plan)) /\
  (In "local.process" (tools_used plan) -> tools_used plan = ["local.process"]).
Proof.
  intros Hset plan. subst plan. rewrite _create_execution_plan_for. cbv zeta.
  cbn [steps tools_used required_scopes].
  rewrite _extract_required_scopes_for. cbv zeta.
  set (g := Py.lower (goal request)).
  destruct (tools_for_member (Py.contains "github" g) (Py.contains "notion" g)
              (Py.contains "summarize" g) (Py.contains "google" g || Py.contains "gmail" g))
    as (_ & Hlen & Tg & Tn & Ts & To & Tl).
  destruct (required_for_member
              (Py.contains "notion" g) (Py.any_in ["create"; "update"; "write"; "add"] g)
              (Py.contains "github" g || Py.contains "git" g)
              (Py.any_in ["create"; "update"; "push"; "commit"; "issue"] g)
              (Py.contains "google" g || Py.contains "gmail" g || Py.contains "drive" g)
              (Py.any_in ["send"; "create"; "update"; "write"] g)
              (Py.contains "summarize" g || Py.contains "analyze" g))
    as (Rn & Rg & Ro & Rs).
  cbv zeta in *.
  match goal with |- context [list_of_set ?l] => set (required := l) in * end.
  destruct (Hset required) as [_ Hin].
  split; [reflexivity|]. split; [exact Hlen|]. split; [reflexivity|].
  rewrite !Hin.
  split.
  { intros H. apply Tg in H. rewrite H in Rg. specialize (Rg eq_refl).
    destruct (Py.any_in ["create"; "update"; "push"; "commit"; "issue"] g); auto. }
  split.
  { intros H. apply Tn in H. specialize (Rn H).
    destruct (Py.any_in ["create"; "update"; "write"; "add"] g); auto. }
  split.
  { intros H. apply To in H. rewrite H in Ro. specialize (Ro eq_refl).
    destruct (Py.any_in ["send"; "create"; "update"; "write"] g); auto. }
  split.
  { intros H. apply Ts in H. rewrite H in Rs. exact (Rs eq_refl). }
  exact Tl.
Qed.

End GuardMore.

(** ** policy_guard.py: validation outcomes *)

Module ValidateMore.
Import Models Autonomy PolicyGuard.

(** The result of [validate_request] on its two branches. *)
Lemma validate_request_allow (list_of_set : list string -> list string)
    (self : PolicyGuard.PolicyGuard) (request : ActRequest) (user : User) :
  check_scope_permissions (_extract_required_scopes list_of_set request) (scopes user) = true ->
  let risk := assess_risk_score (_create_execution_plan list_of_set request) user in
  let level := determine_autonomy_level self request user risk in
  validate_request list_of_set self request user =
  Some (Result.mkPolicyValidationResult true level risk (requires_approval level risk)
          (_extract_required_scopes list_of_set request) [] None).
Proof.
  intros H risk level. unfold validate_request, validate_request_with. cbv zeta.
  rewrite H. cbn [negb].
  apply GuardFacts.PolicyValidationResult_new_in_range, GuardFacts.assess_risk_score_range.
Qed.

Lemma validate_request_deny (list_of_set : list string -> list string)
    (self : PolicyGuard.PolicyGuard) (request : ActRequest) (user : User) :
  check_scope_permissions (_extract_required_scopes list_of_set request) (scopes user) = false ->
  let required := _extract_required_scopes list_of_set request in
  let missing :=
    List.filter (fun scope => negb (_scope_matches_any scope (scopes user))) required in
  validate_request list_of_set self request user =
  Some (Result.mkPolicyValidationResult false L0_Ask 1.0 true required missing
          (Some ("Missing required scopes: " ++ Py.join ", " missing))).
Proof.
  intros H required missing. unfold validate_request, validate_request_with. cbv zeta.
  rewrite H. reflexivity.
Qed.

Lemma plan_has_tools (list_of_set : list string -> list string) (request : ActRequest) :
  tools_used (_create_execution_plan list_of_set request) <> [].
Proof.
  rewrite GuardMore._create_execution_plan_for. cbv zeta. cbn [tools_used].
  apply GuardMore.tools_for_member.
Qed.

(** X9. No request is scored as free of risk: every result of
    [validate_request] has a risk score of at least 0.04. *)
Theorem validate_request_risk_floor (list_of_set : list string -> list string)
    (self : PolicyGuard.PolicyGuard) (request : ActRequest) (user : User)
    (result : Result.PolicyValidationResult) :
  validate_request list_of_set self request user = Some result ->
  (0.04 <= Result.risk_score result)%Q.
Proof.
  destruct (check_scope_permissions (_extract_required_scopes list_of_set request)
              (scopes user)) eqn:E.
  - rewrite (validate_request_allow _ _ _ _ E). intros [= <-]. cbn [Result.risk_score].
    apply RiskMore.assess_risk_score_floor, plan_has_tools.
  - rewrite (validate_request_deny _ _ _ _ E). intros [= <-]. cbn [Result.risk_score].
    vm_compute. discriminate.
Qed.

Lemma check_scope_permissions_global (required_scopes user_scopes : list string) :
  In "*" user_scopes -> check_scope_permissions required_scopes user_scopes = true.
Proof.
  intros H. unfold check_scope_permissions, Scopes.check_scopes.
  apply forallb_forall. intros r _. apply existsb_exists.
  exists "*". split; [assumption | reflexivity].
Qed.

(** X10. A holder of the global scope [*] is never denied: the request
    is allowed with no missing scope and no reason, and the level is
    [L3_ExecuteSilent] whenever the assessed risk is below the guard's
    highest threshold. *)
Theorem global_scope_never_denied (list_of_set : list string -> list string)
    (self : PolicyGuard.PolicyGuard) (request : ActRequest) (user : User) :
  In "*" (scopes user) ->
  exists result,
    validate_request list_of_set self request user = Some result /\
    Result.allowed result = true /\
    Result.missing_scopes result = [] /\
    Result.reason result = None /\
    ((Result.risk_score result < risk_threshold_l1 self)%Q ->
     Result.autonomy_level result = L3_ExecuteSilent /\
     Result.requires_approval result = false).
Proof.
  intros H.
  rewrite (validate_request_allow list_of_set self request user
             (check_scope_permissions_global _ _ H)).
  eexists. split; [reflexivity|]. cbn.
  split; [reflexivity|]. split; [reflexivity|]. split; [reflexivity|].
  intros Hr. unfold determine_autonomy_level.
  apply PyFacts.mem_In in H. apply PyFacts.ltb_true in Hr. rewrite H, Hr.
  split; reflexivity.
Qed.

(** X11. The legacy [policy_guard] never reports a violation: for every
    settings, actor, goal and context it returns the goal and context as the
    approved plan, no violations and no redactions.  With settings that define
    no threshold the level it returns is [L3_ExecuteSilent] or [L0_Ask]. *)
Theorem policy_guard_no_violation (list_of_set : list string -> list string)
    (settings : Settings) (actor goal : string) (context : gmap string string) :
  exists level,
    policy_guard list_of_set settings actor goal context =
    Some ({| plan_goal := goal; plan_context := context |}, [], [], level) /\
    (settings = {| RISK_THRESHOLD_L3 := None; RISK_THRESHOLD_L2 := None;
                   RISK_THRESHOLD_L1 := None |} ->
     level = L3_ExecuteSilent \/ level = L0_Ask).
Proof.
  unfold policy_guard.
  rewrite validate_request_allow
    by (apply check_scope_permissions_global; cbn; auto).
  cbn. eexists. split; [reflexivity|].
  intros ->. unfold determine_autonomy_level. cbn.
  match goal with |- context [Py.ltb ?r 0.8] => destruct (PyFacts.ltb_spec r 0.8) as [Hr|Hr];
    [auto | right;
     destruct (PyFacts.ltb_spec r 0.3); [exfalso; lra|];
     destruct (PyFacts.ltb_spec r 0.6); [exfalso; lra|]; reflexivity] end.
Qed.

(** X12. A goal that mentions Notion together with one of the verbs
    create, update, write or add requires [notion.write]; a user whose scopes
    do not satisfy it is denied, at level [L0_Ask] and with [notion.write]
    among the missing scopes. *)
Theorem notion_write_denied (list_of_set : list string -> list string)
    (self : PolicyGuard.PolicyGuard) (request : ActRequest) (user : User) :
  Spec.set_listing list_of_set ->
  Py.contains "notion" (Py.lower (goal request)) = true ->
  Py.any_in ["create"; "update"; "write"; "add"] (Py.lower (goal request)) = true ->
  ~ Spec.satisfied "notion.write" (scopes user) ->
  exists result,
    validate_request list_of_set self request user = Some result /\
    Result.allowed result = false /\
    Result.autonomy_level result = L0_Ask /\
    In "notion.write" (Result.required_scopes result) /\
    In "notion.write" (Result.missing_scopes result).
Proof.
  intros Hset Hn Hw Hs.
  assert (In "notion.write" (_extract_required_scopes list_of_set request)) as Hin.
  { rewrite GuardMore._extract_required_scopes_for. cbv zeta.
    apply (Hset _). rewrite Hn, Hw.
    match goal with
    | |- In _ (Spec.required_for true true ?g ?gw ?o ?ow ?s) =>
        destruct (GuardMore.required_for_member true true g gw o ow s) as [H _]
    end.
    exact (H eq_refl). }
  assert (check_scope_permissions (_extract_required_scopes list_of_set request)
            (scopes user) = false) as E.
  { apply ScopeFacts.check_scope_permissions_false. eauto. }
  rewrite (validate_request_deny _ _ _ _ E).
  eexists. split; [reflexivity|]. cbn.
  repeat split; try assumption.
  apply ScopeFacts.missing_scopes_unsatisfied. auto.
Qed.

End ValidateMore.

(** ** policy_guard.py: the order of the required scopes *)

Module OrderMore.
Import Models Autonomy PolicyGuard.












End OrderMore.

(** ** approvals.py: creation, status, expiry, listing *)

Module ApprovalMore.
Import Approvals.




(** X17. A decision touches four fields only: on a pending record it
    rewrites the status, who decided, when, and the reason, and leaves every
    other field of the record, among them [expires_at], as it was. *)
Theorem decide_run_keeps_other_fields (d : action_t) (run_id : string)
    (request : ApprovalRequest) (user_id now : string) (redis : gmap string entry)
    (e : entry) :
  redis !! ("approval:" ++ run_id) = Some e ->
  Spec.is_pending (value e) ->
  exists e',
    (decide_run d run_id request user_id now redis).2 !! ("approval:" ++ run_id) = Some e' /\
    (forall field,
       field <> "status" -> field <> Spec.decided_by_key d ->
       field <> Spec.decided_at_key d -> field <> "reason" ->
       value e' !! field = value e !! field).
Proof.
  intros H Hp.
  destruct (ApprovalFacts.decide_run_pending d run_id request user_id now redis e H Hp)
    as (resp & -> & _).
  cbn [snd]. eexists. split; [apply lookup_insert_eq|].
  intros field H1 H2 H3 H4. cbn [value]. unfold Spec.decided_data.
  now rewrite !lookup_insert_ne by congruence.
Qed.


(** X19. The status endpoint and the status helper agree: when the
    endpoint returns a response the helper returns its status, and when the
    endpoint answers 404 the helper finds nothing. *)
Theorem status_endpoint_agrees_with_helper (run_id error_text : string)
    (redis : gmap string entry) :
  (forall resp, get_approval_status run_id error_text redis = inr resp ->
                check_approval_status redis run_id = Some (status resp)) /\
  (Spec.raised 404 (get_approval_status run_id error_text redis) ->
   check_approval_status redis run_id = None).
Proof.
  unfold get_approval_status, check_approval_status, Spec.raised.
  destruct (redis_get redis ("approval:" ++ run_id)) as [data|].
  - split.
    + intros resp. unfold get_str.
      destruct (data !! "status") as [[| s | |]|]; cbn;
        repeat match goal with
               | |- context [match get_optional_str ?d ?k with _ => _ end] =>
                   destruct (get_optional_str d k)
               end; intros H; inversion H; reflexivity.
    + intros [detail H]. exfalso.
      repeat match type of H with
             | context [match ?x with _ => _ end] => destruct x
             end; inversion H.
  - split; [discriminate | reflexivity].
Qed.




End ApprovalMore.

(** ** webhooks.py: the retry loop on any transport *)

Module WebhookMore.
Import Webhooks.

(** Within the first [n] attempts either none is delivered or there is a
    first delivered one. *)
Lemma first_delivered (transport : nat -> outcome) (n : nat) :
  (forall j, (j < n)%nat -> Spec.delivered (transport j) = false) \/
  (exists k, (k < n)%nat /\
             (forall j, (j < k)%nat -> Spec.delivered (transport j) = false) /\
             Spec.delivered (transport k) = true).
Proof.
  induction n as [|n [IH | (k & Hk & Hfail & Hok)]].
  - left. intros j Hj. lia.
  - destruct (Spec.delivered (transport n)) eqn:E.
    + right. exists n. split; [lia|]. split; [intros; apply IH; lia | assumption].
    + left. intros j Hj. destruct (Nat.eq_dec j n) as [-> | Hne]; [assumption|].
      apply IH. lia.
  - right. exists k. split; [lia|]. auto.
Qed.

(** The trace of a send is empty or a delivery trace. *)
Lemma _send_webhook_trace (self : WebhookNotifier) (transport : nat -> outcome) :
  (exists k, (k < Z.to_nat (max_retries self))%nat /\
             (forall j, (j < k)%nat -> Spec.delivered (transport j) = false) /\
             Spec.delivered (transport k) = true /\
             _send_webhook self transport
             = (inr true, Spec.delivery_trace (backoff_base self) k)) \/
  ((forall j, (j < Z.to_nat (max_retries self))%nat ->
              Spec.delivered (transport j) = false) /\
   ((Z.to_nat (max_retries self) = 0%nat /\ _send_webhook self transport = (inr false, [])) \/
    (exists m, Z.to_nat (max_retries self) = S m /\
               _send_webhook self transport
               = (inr false, Spec.delivery_trace (backoff_base self) m)))).
Proof.
  destruct (first_delivered transport (Z.to_nat (max_retries self)))
    as [Hfail | (k & Hk & Hfail & Hok)].
  - right. split; [assumption|].
    rewrite (WebhookFacts._send_webhook_exhausted self transport Hfail).
    destruct (Z.to_nat (max_retries self)) as [|m]; [left | right; exists m]; auto.
  - left. exists k. repeat split; try assumption.
    now apply WebhookFacts._send_webhook_delivered.
Qed.

(** X21. For every transport, [_send_webhook] returns true exactly when
    one of the first [max_retries] attempts is delivered; it never makes more
    than [max_retries] attempts, it sleeps exactly once between two attempts,
    and its last action is an attempt, never a sleep. *)
Theorem send_webhook_result (self : WebhookNotifier) (transport : nat -> outcome) :
  let n := Z.to_nat (max_retries self) in
  let out := _send_webhook self transport in
  (out.1 = inr true <->
   exists k, (k < n)%nat /\ Spec.delivered (transport k) = true) /\
  (out.1 = inr true \/ out.1 = inr false) /\
  (attempts_made out.2 <= n)%nat /\
  length (delays out.2) = (attempts_made out.2 - 1)%nat /\
  List.last out.2 Post = Post.
Proof.
  intros n out. subst n out.
  assert (forall base k, List.last (Spec.delivery_trace base k) Post = Post) as Hlast.
  { intros base k. unfold Spec.delivery_trace. apply List.last_last. }
  destruct (_send_webhook_trace self transport)
    as [(k & Hk & Hfail & Hok & ->) | [Hfail [[Hn ->] | (m & Hn & ->)]]]; cbn [fst snd].
  - destruct (WebhookFacts.delivery_trace_counts (backoff_base self) k) as [-> ->].
    rewrite length_map, length_seq, Hlast.
    repeat split; auto; try lia. intros _. eauto.
  - rewrite Hn. repeat split; auto.
    + discriminate.
    + intros (k & Hk & _). lia.
  - destruct (WebhookFacts.delivery_trace_counts (backoff_base self) m) as [-> ->].
    rewrite length_map, length_seq, Hlast, Hn.
    repeat split; auto; try lia; try discriminate.
    intros (k & Hk & Hok). rewrite Hfail in Hok by lia. discriminate.
Qed.

(** X22. With [max_retries] zero or negative nothing is sent: the result
    is false and there is neither an attempt nor a sleep. *)
Theorem send_webhook_no_budget (self : WebhookNotifier) (transport : nat -> outcome) :
  (max_retries self <= 0)%Z ->
  _send_webhook self transport = (inr false, []).
Proof.
  intros H. unfold _send_webhook, range.
  replace (Z.to_nat (max_retries self)) with 0%nat by lia. reflexivity.
Qed.

Lemma Zsum_app (l l' : list Z) : Spec.Zsum (l ++ l') = (Spec.Zsum l + Spec.Zsum l')%Z.
Proof.
  unfold Spec.Zsum. induction l as [|x l IH]; cbn [app fold_right]; [reflexivity|].
  rewrite IH. lia.
Qed.

(** The geometric sum of the waits. *)
Lemma geometric_waits (base : Z) (k : nat) :
  ((base - 1) * Spec.Zsum (List.map (fun j => base ^ Z.of_nat j) (seq 0 k))
   = base ^ Z.of_nat k - 1)%Z.
Proof.
  induction k as [|k IH].
  - unfold Spec.Zsum. cbn [seq List.map fold_right]. change (Z.of_nat 0) with 0%Z.
    rewrite Z.pow_0_r. lia.
  - rewrite seq_S, List.map_app, Zsum_app, Z.mul_add_distr_l, IH.
    unfold Spec.Zsum. cbn [List.map Nat.add fold_right].
    rewrite Nat2Z.inj_succ, Z.pow_succ_r by lia. lia.
Qed.

(** X23. The time a send sleeps is fixed by the number of attempts it
    makes: with [a] attempts and base [b] the waits sum to
    [1 + b + ... + b ^ (a - 2)], that is [(b - 1) * total = b ^ (a - 1) - 1].
    With the default notifier a send never sleeps more than 3 seconds in
    all. *)
Theorem send_webhook_total_wait (self : WebhookNotifier) (transport : nat -> outcome) :
  let out := _send_webhook self transport in
  ((backoff_base self - 1) * Spec.Zsum (delays out.2)
   = backoff_base self ^ Z.of_nat (attempts_made out.2 - 1) - 1)%Z /\
  (Spec.Zsum (delays (_send_webhook create_webhook_notifier_default transport).2) <= 3)%Z.
Proof.
  intros out. subst out. split.
  - destruct (_send_webhook_trace self transport)
      as [(k & _ & _ & _ & ->) | [_ [[_ ->] | (m & _ & ->)]]]; cbn [fst snd].
    + destruct (WebhookFacts.delivery_trace_counts (backoff_base self) k) as [-> ->].
      replace (S k - 1)%nat with k by lia. apply geometric_waits.
    + apply (geometric_waits (backoff_base self) 0).
    + destruct (WebhookFacts.delivery_trace_counts (backoff_base self) m) as [-> ->].
      replace (S m - 1)%nat with m by lia. apply geometric_waits.
  - destruct (_send_webhook_trace create_webhook_notifier_default transport)
      as [(k & Hk & _ & _ & ->) | [_ [[_ ->] | (m & Hm & ->)]]]; cbn [fst snd].
    + change (Z.to_nat (max_retries create_webhook_notifier_default)) with 3%nat in Hk.
      destruct k as [|[|[|k]]]; [vm_compute; discriminate .. | lia].
    + vm_compute; discriminate.
    + change (Z.to_nat (max_retries create_webhook_notifier_default)) with 3%nat in Hm.
      injection Hm as <-. vm_compute; discriminate.
Qed.

End WebhookMore.

(** ** policy_guard.py: goals without a service, and scopes without a tool *)

Module GoalMore.
Import Models Autonomy PolicyGuard.

(** X24. The scopes required can exceed what the plan uses: a goal that
    contains [git] but not [github] requires a GitHub scope although no GitHub
    tool is planned; likewise [drive] without [google] or [gmail] requires a
    Google scope without the Google tool, and [analyze] without [summarize]
    requires [local.summarize] without the summarize tool. *)
Theorem scope_required_without_tool (list_of_set : list string -> list string)
    (request : ActRequest) :
  Spec.set_listing list_of_set ->
  let g := Py.lower (goal request) in
  let required := _extract_required_scopes list_of_set request in
  let tools := tools_used (_create_execution_plan list_of_set request) in
  (Py.contains "git" g = true -> Py.contains "github" g = false ->
   (In "github.read" required \/ In "github.write" required) /\
   ~ In "adapters_github.search_issues" tools) /\
  (Py.contains "drive" g = true ->
   Py.contains "google" g = false -> Py.contains "gmail" g = false ->
   (In "google.read" required \/ In "google.write" required) /\
   ~ In "adapters_google.send_email" tools) /\
  (Py.contains "analyze" g = true -> Py.contains "summarize" g = false ->
   In "local.summarize" required /\ ~ In "local.summarize_text" tools).
Proof.
  intros Hset g required tools. subst required tools.
  rewrite GuardMore._create_execution_plan_for, GuardMore._extract_required_scopes_for.
  cbv zeta. cbn [tools_used]. fold g.
  destruct (GuardMore.tools_for_member (Py.contains "github" g) (Py.contains "notion" g)
              (Py.contains "summarize" g) (Py.contains "google" g || Py.contains "gmail" g))
    as (_ & _ & Tg & _ & Ts & To & _).
  destruct (GuardMore.required_for_member
              (Py.contains "notion" g) (Py.any_in ["create"; "update"; "write"; "add"] g)
              (Py.contains "github" g || Py.contains "git" g)
              (Py.any_in ["create"; "update"; "push"; "commit"; "issue"] g)
              (Py.contains "google" g || Py.contains "gmail" g || Py.contains "drive" g)
              (Py.any_in ["send"; "create"; "update"; "write"] g)
              (Py.contains "summarize" g || Py.contains "analyze" g))
    as (_ & Rg & Ro & Rs).
  cbv zeta in *.
  match goal with |- context [list_of_set ?l] => set (required := l) in * end.
  destruct (Hset required) as [_ Hin]. rewrite !Hin.
  split; [| split].
  - intros Hgit Hgithub. rewrite Hgit, Hgithub in Rg. specialize (Rg eq_refl).
    split.
    + destruct (Py.any_in ["create"; "update"; "push"; "commit"; "issue"] g); auto.
    + intros H. apply Tg in H. congruence.
  - intros Hdrive Hgoogle Hgmail. rewrite Hdrive, Hgoogle, Hgmail in Ro.
    specialize (Ro eq_refl). split.
    + destruct (Py.any_in ["send"; "create"; "update"; "write"] g); auto.
    + intros H. apply To in H. rewrite Hgoogle, Hgmail in H. discriminate.
  - intros Hanalyze Hsummarize. rewrite Hanalyze, Hsummarize in Rs. split.
    + exact (Rs eq_refl).
    + intros H. apply Ts in H. congruence.
Qed.

(** The risk of the plan for a goal that names nothing. *)
Lemma local_plan_risk (user : User) :
  (0.12 <= assess_risk_score
             {| steps := [{| tool := "local.process"; input := ∅ |}];
                tools_used := ["local.process"];
                required_scopes := ["local.read"] |} user <= 0.15)%Q.
Proof.
  unfold assess_risk_score. cbn [steps tools_used required_scopes length Nat.ltb Nat.leb
                                 fold_left].
  assert (0.0 + calculate_tool_risk "local.process" [] + _calculate_scope_risk ["local.read"]
          == 0.15)%Q as Hbase by (vm_compute; reflexivity).
  pose proof (AutonomyMore.trust_range user) as [Ht0 Ht1].
  set (t := get_user_trust_level user) in *.
  set (base := (0.0 + calculate_tool_risk "local.process" [] +
                _calculate_scope_risk ["local.read"])%Q) in *.
  assert (base * (1 - t * 0.2) == 0.15 - 0.03 * t)%Q as Hx by (rewrite Hbase; ring).
  clearbody base t.
  split.
  - eapply Qle_trans; [| apply RiskMore.max_ge_l].
    apply RiskMore.min_ge; [rewrite Hx; lra | vm_compute; discriminate].
  - apply PyFacts.max_le; [| vm_compute; discriminate].
    eapply Qle_trans; [apply PyFacts.min_le_l|]. rewrite Hx. lra.
Qed.

(** X25. A goal that names no service and asks for no summary needs only
    [local.read]; for a user whose scopes satisfy it the request is allowed
    with a risk score between 0.12 and 0.15, and under the default thresholds
    it never needs approval: it runs at [L3_ExecuteSilent], or at
    [L2_ExecuteNotify] or [L3_ExecuteSilent] when it is a dry run. *)
Theorem plain_goal_runs_unattended (list_of_set : list string -> list string)
    (request : ActRequest) (user : User) :
  Spec.set_listing list_of_set ->
  Py.any_in ["notion"; "git"; "google"; "gmail"; "drive"; "summarize"; "analyze"]
    (Py.lower (goal request)) = false ->
  Spec.satisfied "local.read" (scopes user) ->
  exists result,
    validate_request list_of_set default_guard request user = Some result /\
    Result.allowed result = true /\
    Result.required_scopes result = ["local.read"] /\
    (0.12 <= Result.risk_score result <= 0.15)%Q /\
    Result.requires_approval result = false /\
    (dry_run request = false -> Result.autonomy_level result = L3_ExecuteSilent).
Proof.
  intros Hset Hnone Hsat.
  unfold Py.any_in in Hnone. cbn [existsb] in Hnone.
  repeat (apply orb_false_iff in Hnone as [? Hnone]).
  assert (Py.contains "github" (Py.lower (goal request)) = false) as Hgithub.
  { apply not_true_is_false. intros H'.
    assert (Py.contains "git" (Py.lower (goal request)) = true); [| congruence].
    clear - H'. induction (Py.lower (goal request)) as [|c s IH]; [discriminate|].
    cbn [Py.contains] in *. apply orb_true_iff in H' as [H' | H'].
    - apply orb_true_iff. left.
      destruct s as [|c1 [|c2 [|c3 s]]]; cbn [Py.startswith] in *;
        repeat (apply andb_true_iff in H' as [? H']); try discriminate.
      repeat (apply andb_true_iff; split); auto.
    - apply orb_true_iff. right. auto. }
  assert (_extract_required_scopes list_of_set request = ["local.read"]) as Hreq.
  { rewrite GuardMore._extract_required_scopes_for. cbv zeta.
    repeat match goal with H : Py.contains _ _ = false |- _ => rewrite H; clear H end.
    cbn [orb]. change (Spec.required_for false _ false _ false _ false) with ["local.read"].
    apply Permutation_length_1_inv, Permutation_sym.
    apply GuardMore.set_listing_Permutation; [assumption|].
    constructor; [intros [] | constructor]. }
  assert (_create_execution_plan list_of_set request =
          {| steps := [{| tool := "local.process"; input := ∅ |}];
             tools_used := ["local.process"];
             required_scopes := ["local.read"] |}) as Hplan.
  { rewrite GuardMore._create_execution_plan_for. cbv zeta. rewrite Hreq.
    repeat match goal with H : Py.contains _ _ = false |- _ => rewrite H; clear H end.
    reflexivity. }
  assert (check_scope_permissions (_extract_required_scopes list_of_set request)
            (scopes user) = true) as Hcheck.
  { rewrite Hreq. unfold check_scope_permissions, Scopes.check_scopes. cbn [forallb].
    apply ScopeFacts._scope_matches_any_satisfied in Hsat.
    unfold _scope_matches_any in Hsat.
    change (existsb (Scopes.scope_matches "local.read") (scopes user) = true) in Hsat.
    now rewrite Hsat. }
  rewrite (ValidateMore.validate_request_allow _ _ _ _ Hcheck), Hplan, Hreq.
  pose proof (local_plan_risk user) as [Hlo Hhi].
  set (risk := assess_risk_score _ user) in *.
  eexists. split; [reflexivity|]. cbn.
  split; [reflexivity|]. split; [reflexivity|]. split; [split; assumption|].
  assert (Py.ltb risk 0.3 = true) as Hlow by (apply PyFacts.ltb_true; lra).
  unfold determine_autonomy_level.
  change (risk_threshold_l3 default_guard) with 0.3%Q.
  rewrite Hlow.
  destruct (Py.mem "*" (scopes user) && Py.ltb risk (risk_threshold_l1 default_guard)),
    (dry_run request); split; try reflexivity; discriminate.
Qed.

End GoalMore.

(** ** The further properties at concrete inputs *)

Module MoreWitnesses.
Import Models Autonomy PolicyGuard Fixtures.


Lemma determine_autonomy_level_antitone_witness :
  (0.2 <= 0.7)%Q /\
  (Spec.level_rank (determine_autonomy_level default_guard
                      (request "user123" "Write data" false) standard_user 0.7)
   <= Spec.level_rank (determine_autonomy_level default_guard
                         (request "user123" "Write data" false) standard_user 0.2))%nat.
Proof.
  split; [vm_compute; discriminate|].
  apply (AutonomyMore.determine_autonomy_level_antitone default_guard
           (request "user123" "Write data" false) standard_user 0.2 0.7).
  vm_compute; discriminate.
Defined.

Lemma dry_run_never_needs_approval_witness :
  dry_run (request "user123" "Delete all Notion pages" true) = true /\
  requires_approval
    (determine_autonomy_level default_guard
       (request "user123" "Delete all Notion pages" true) limited_user 0.95) 0.95 = false.
Proof.
  split; [reflexivity|].
  apply (AutonomyMore.dry_run_never_needs_approval default_guard
           (request "user123" "Delete all Notion pages" true) limited_user 0.95).
  reflexivity.
Defined.

Lemma assess_risk_score_trust_witness :
  (get_user_trust_level limited_user <= get_user_trust_level admin_user)%Q /\
  (assess_risk_score
     {| steps := [{| tool := "adapters_notion.create_page"; input := ∅ |}];
        tools_used := ["adapters_notion.create_page"];
        required_scopes := ["notion.write"] |} admin_user
   <= assess_risk_score
        {| steps := [{| tool := "adapters_notion.create_page"; input := ∅ |}];
           tools_used := ["adapters_notion.create_page"];
           required_scopes := ["notion.write"] |} limited_user)%Q.
Proof.
  split; [vm_compute; discriminate|].
  apply (RiskMore.assess_risk_score_trust _ admin_user limited_user).
  vm_compute; discriminate.
Defined.

Lemma _extract_required_scopes_shape_witness :
  Spec.set_listing (nodup string_dec) /\
  _extract_required_scopes (nodup string_dec)
    (request "user123" "Fetch latest Notion pages and analyze their content" false) <> [].
Proof.
  split; [apply GuardMore.set_listing_nodup|].
  destruct (GuardMore._extract_required_scopes_shape (nodup string_dec)
              (request "user123" "Fetch latest Notion pages and analyze their content" false)
              GuardMore.set_listing_nodup) as (Hne & _).
  exact Hne.
Defined.

Lemma _create_execution_plan_covered_witness :
  Spec.set_listing (nodup string_dec) /\
  (1 <= length (tools_used (_create_execution_plan (nodup string_dec)
                              (request "user123" "Summarize my Gmail inbox" false))) <= 4)%nat.
Proof.
  split; [apply GuardMore.set_listing_nodup|].
  destruct (GuardMore._create_execution_plan_covered (nodup string_dec)
              (request "user123" "Summarize my Gmail inbox" false)
              GuardMore.set_listing_nodup) as (_ & Hlen & _).
  exact Hlen.
Defined.

Lemma validate_request_risk_floor_witness :
  exists result,
    validate_request (fun l => l) default_guard
      (request "user123" "Summarize this text" false) standard_user = Some result /\
    (0.04 <= Result.risk_score result)%Q.
Proof.
  destruct (validate_request (fun l => l) default_guard
              (request "user123" "Summarize this text" false) standard_user)
    as [result|] eqn:E.
  - exists result. split; [reflexivity|].
    exact (ValidateMore.validate_request_risk_floor (fun l => l) default_guard
             (request "user123" "Summarize this text" false) standard_user result E).
  - vm_compute in E. discriminate.
Defined.

Lemma global_scope_never_denied_witness :
  In "*" (scopes admin_user) /\
  exists result,
    validate_request (fun l => l) default_guard
      (request "admin" "Delete GitHub repository and all issues" false) admin_user
    = Some result /\
    Result.allowed result = true.
Proof.
  split; [cbn; auto|].
  destruct (ValidateMore.global_scope_never_denied (fun l => l) default_guard
              (request "admin" "Delete GitHub repository and all issues" false) admin_user)
    as (result & H & Hallowed & _); [cbn; auto|].
  exists result. split; assumption.
Defined.

Lemma notion_write_denied_witness :
  Py.contains "notion"
    (Py.lower (goal (request "u" "create a new Notion page with meeting notes" false)))
  = true /\
  exists result,
    validate_request (nodup string_dec) default_guard
      (request "u" "create a new Notion page with meeting notes" false)
      {| user_id := "u"; scopes := ["notion.read"] |} = Some result /\
    Result.allowed result = false /\
    In "notion.write" (Result.missing_scopes result).
Proof.
  split; [reflexivity|].
  destruct (ValidateMore.notion_write_denied (nodup string_dec) default_guard
              (request "u" "create a new Notion page with meeting notes" false)
              {| user_id := "u"; scopes := ["notion.read"] |})
    as (result & H & Hallowed & _ & _ & Hmissing).
  - apply GuardMore.set_listing_nodup.
  - reflexivity.
  - reflexivity.
  - intros Hs. apply ScopeFacts._scope_matches_any_satisfied in Hs.
    vm_compute in Hs. discriminate.
  - exists result. repeat split; assumption.
Defined.



Lemma decide_run_keeps_other_fields_witness :
  exists e',
    (Approvals.decide_run Approvals.approve "run-1"
       {| Approvals.action := Approvals.approve; Approvals.reason := None |}
       "bob" "2025-01-01T00:05:00+00:00"
       (Approvals.create_pending_approval ∅ "run-1" "alice" "Create a page" "L1_Draft"
          0.7%Q ["notion.write"] 600
          "2025-01-01T00:00:00+00:00" "2025-01-01T00:10:00+00:00")).2
    !! "approval:run-1" = Some e' /\
    Approvals.value e' !! "expires_at"
    = Some (Approvals.JString "2025-01-01T00:10:00+00:00").
Proof.
  destruct (ApprovalMore.decide_run_keeps_other_fields Approvals.approve "run-1"
              {| Approvals.action := Approvals.approve; Approvals.reason := None |}
              "bob" "2025-01-01T00:05:00+00:00"
              (Approvals.create_pending_approval ∅ "run-1" "alice" "Create a page" "L1_Draft"
                 0.7%Q ["notion.write"] 600
                 "2025-01-01T00:00:00+00:00" "2025-01-01T00:10:00+00:00")
              _ (lookup_insert_eq _ _ _) eq_refl)
    as (e' & He' & Hfields).
  exists e'. split; [exact He'|].
  rewrite (Hfields "expires_at") by discriminate. reflexivity.
Defined.

Lemma send_webhook_no_budget_witness :
  (0 <= 0)%Z /\
  Webhooks._send_webhook
    {| Webhooks.timeout_seconds := 10; Webhooks.max_retries := 0;
       Webhooks.backoff_base := 2 |}
    (responses [200]%Z)
  = (inr false, []).
Proof.
  split; [lia|].
  apply (WebhookMore.send_webhook_no_budget
           {| Webhooks.timeout_seconds := 10; Webhooks.max_retries := 0;
              Webhooks.backoff_base := 2 |}).
  cbn. lia.
Defined.

Lemma scope_required_without_tool_witness :
  Spec.set_listing (nodup string_dec) /\
  (In "github.read"
      (_extract_required_scopes (nodup string_dec)
         (request "user123" "Plan the digital roadmap" false)) \/
   In "github.write"
      (_extract_required_scopes (nodup string_dec)
         (request "user123" "Plan the digital roadmap" false))) /\
  ~ In "adapters_github.search_issues"
      (tools_used (_create_execution_plan (nodup string_dec)
                     (request "user123" "Plan the digital roadmap" false))).
Proof.
  split; [apply GuardMore.set_listing_nodup|].
  destruct (GoalMore.scope_required_without_tool (nodup string_dec)
              (request "user123" "Plan the digital roadmap" false)
              GuardMore.set_listing_nodup) as (Hgit & _).
  exact (Hgit eq_refl eq_refl).
Defined.

Lemma plain_goal_runs_unattended_witness :
  Spec.set_listing (nodup string_dec) /\
  exists result,
    validate_request (nodup string_dec) default_guard
      (request "limited_user" "Test goal" false) limited_user = Some result /\
    Result.requires_approval result = false /\
    Result.autonomy_level result = L3_ExecuteSilent.
Proof.
  split; [apply GuardMore.set_listing_nodup|].
  destruct (GoalMore.plain_goal_runs_unattended (nodup string_dec)
              (request "limited_user" "Test goal" false) limited_user
              GuardMore.set_listing_nodup eq_refl)
    as (result & H & _ & _ & _ & Happroval & Hlevel).
  - apply ScopeFacts._scope_matches_any_satisfied. reflexivity.
  - exists result. split; [exact H|]. split; [exact Happroval | exact (Hlevel eq_refl)].
Defined.

End MoreWitnesses.
